(** * go-nitro: direct funding, vouchers, ledger outcomes and the engine

    A shallow embedding of the off-chain protocol engine of go-nitro:
    the direct-fund objective ([protocols/directfund]), the voucher
    manager ([payments]), the ledger outcome of a consensus channel
    ([channel/consensus_channel]), the store and the engine
    ([client/engine]).

    Conventions.  Go's [*big.Int] is [Z]; [uint64] turn numbers are [N];
    slice indices are [nat]; a Go [map] is a [gmap]; [error] is the
    error's message; a Go [panic] is the [Panicked] outcome of
    [may_panic].  Deep copies ([Clone]) rebuild the value. *)

From Stdlib Require Import ZArith NArith Lia Ascii String.
From stdpp Require Import base gmap strings list fin_maps pretty.

Local Open Scope string_scope.

(** ** Results, errors and panics *)

Definition error := string.

Inductive result (A : Type) : Type :=
| Ok (a : A)
| Err (e : error).
Arguments Ok {A} a.
Arguments Err {A} e.

Inductive may_panic (A : Type) : Type :=
| Done (a : A)
| Panicked (msg : string).
Arguments Done {A} a.
Arguments Panicked {A} msg.

(** [fmt.Errorf("... %w", err)] *)
Definition wrap (prefix : string) (e : error) : error := prefix +:+ e.

(** ** Package [types] *)
Module types.

(** A 20-byte account id and a 32-byte channel or participant id, each
    read as a big-endian number. *)
Abbreviation Address := N (only parsing).
Abbreviation Destination := N (only parsing).

(** [map[common.Address]*big.Int] *)
Abbreviation Funds := (gmap N Z) (only parsing).

(** The address occupies the low 20 bytes of the destination. *)
Definition AddressToDestination (a : Address) : Destination := a.

Definition hex_digits : string := "0123456789abcdef".

(** The hex digit of a number below 16. *)
Definition hex_digit (d : N) : ascii :=
  match String.get (N.to_nat d) hex_digits with
  | Some c => c
  | None => "f"%char
  end.

Fixpoint hex_fixed (digits : nat) (d : N) (acc : string) : string :=
  match digits with
  | O => acc
  | S k => hex_fixed k (d / 16)%N (String (hex_digit (d mod 16)%N) acc)
  end.

(** [Destination.String()]: 0x and 64 hex digits. *)
Definition Destination_String (d : Destination) : string :=
  "0x" +:+ hex_fixed 64 d "".

(** The text of an address: 0x and 40 hex digits. *)
Definition Address_String (a : Address) : string :=
  "0x" +:+ hex_fixed 40 a "".

(** The position of [c] in [digits], counted from [i]. *)
Fixpoint position (c : ascii) (digits : string) (i : N) : option N :=
  match digits with
  | EmptyString => None
  | String d rest => if Ascii.eqb c d then Some i else position c rest (i + 1)%N
  end.

(** The value of a hex digit, in lower or upper case. *)
Definition hex_value (c : ascii) : option N :=
  match position c hex_digits 0%N with
  | Some v => Some v
  | None => position c "ABCDEF" 10%N
  end.

Fixpoint parse_hex (s : string) (acc : N) : option N :=
  match s with
  | EmptyString => Some acc
  | String c rest =>
      match hex_value c with
      | Some d => parse_hex rest (acc * 16 + d)%N
      | None => None
      end
  end.

(** The number spelled by 0x and exactly [digits] hex digits. *)
Definition parse_fixed (digits : nat) (s : string) : option N :=
  match s with
  | String "0" (String "x" rest) =>
      if decide (String.length rest = digits) then parse_hex rest 0%N else None
  | _ => None
  end.

Definition Destination_UnmarshalText (s : string) : option Destination := parse_fixed 64 s.
Definition Address_UnmarshalText (s : string) : option Address := parse_fixed 40 s.

(** A number that fits the 20 bytes of an address, the 32 bytes of a
    destination. *)
Definition isAddress (a : N) : Prop := (a < 2 ^ 160)%N.
Definition isDestination (d : N) : Prop := (d < 2 ^ 256)%N.

(** What [fmt] prints for the verb [%x] of a value with a [String]
    method: the bytes of the text, two hex digits each. *)
Fixpoint hex_of_string (s : string) : string :=
  match s with
  | EmptyString => EmptyString
  | String c rest =>
      String (hex_digit (N_of_ascii c / 16)%N)
        (String (hex_digit (N_of_ascii c mod 16)%N) (hex_of_string rest))
  end.

Definition Gt (a b : Z) : bool := (b <? a)%Z.

(** [Funds.Add]: the assets of either operand, amounts summed. *)
Definition Funds_Add (a b : Funds) : Funds :=
  union_with (λ x y, Some (x + y)%Z) a b.

Definition Funds_Clone (f : Funds) : Funds := (λ v, v) <$> f.

(** Modelled from the spec: [Funds.IsNonZero] is not among the sources.
    The spec has the deposit made while the holdings are below the
    target, so a [Funds] value counts as non-zero when the amount of
    some asset is strictly positive. *)
Definition Funds_IsNonZero (f : Funds) : bool :=
  existsb (λ '(_, v), (0 <? v)%Z) (map_to_list f).

End types.

(** ** [encoding/json]

    Serialized data is kept as the JSON value that the bytes spell: the
    literal [null], a number, a string or an object with its members in
    order. *)
Module json.

#[warnings="-register-all"] Inductive value : Type :=
| Null
| Number (n : Z)
| Text (s : string)
| Object (members : list (string * value)).

(** The value of the member named [name]; of several, the last. *)
Definition member (name : string) (members : list (string * value)) : option value :=
  foldl (λ found m, if String.eqb m.1 name then Some m.2 else found) None members.

(** [map[common.Address]*big.Int]: an object keyed by the address text. *)
Definition marshalFunds (f : types.Funds) : value :=
  Object ((λ e, (types.Address_String e.1, Number e.2)) <$> map_to_list f).

Definition unmarshalFunds (j : value) : result types.Funds :=
  match j with
  | Null => Ok ∅
  | Object members =>
      foldl (λ acc m,
               match acc with
               | Err e => Err e
               | Ok funds =>
                   match types.Address_UnmarshalText m.1, m.2 with
                   | Some asset, Number amount => Ok (<[asset := amount]> funds)
                   | None, _ => Err "json: cannot unmarshal the key into an address"
                   | _, _ => Err "json: cannot unmarshal the value into a big.Int"
                   end
               end)
            (Ok ∅) members
  | _ => Err "json: cannot unmarshal into Go value of type types.Funds"
  end.

End json.

(** ** Package [channel/state]: outcomes and states *)
Module outcome.

Record Allocation : Type := mkAllocation {
  Destination : types.Destination;
  Amount : Z;
  AllocationType : N;
  Metadata : list N;
}.

Record SingleAssetExit : Type := mkSingleAssetExit {
  Asset : types.Address;
  Allocations : list Allocation;
}.

Abbreviation Exit := (list SingleAssetExit) (only parsing).

#[global] Instance Allocation_eq_dec : EqDecision Allocation.
Proof. solve_decision. Defined.
#[global] Instance SingleAssetExit_eq_dec : EqDecision SingleAssetExit.
Proof. solve_decision. Defined.

(** Modelled from the spec: [allocationType] is one of Simple and
    Guarantee, numbered in this order. *)
Definition NormalAllocationType : N := 0.
Definition GuaranteeAllocationType : N := 1.

(** Modelled from the spec: the metadata of a guarantee encodes its
    [left] and [right] destinations. *)
Definition GuaranteeMetadata_Encode (left right : types.Destination) : list N :=
  [left; right].

Definition total (allocs : list Allocation) : Z :=
  foldr (λ a acc, (Amount a + acc)%Z) 0%Z allocs.

Definition totalFor (dest : types.Destination) (allocs : list Allocation) : Z :=
  foldr (λ a acc, if decide (Destination a = dest) then (Amount a + acc)%Z else acc)
        0%Z allocs.

(** The amounts allocated ahead of the first allocation to [interest]. *)
Fixpoint totalBefore (interest : types.Destination) (allocs : list Allocation) : Z :=
  match allocs with
  | [] => 0
  | a :: rest =>
      if decide (Destination a = interest) then 0
      else Amount a + totalBefore interest rest
  end%Z.

(** Modelled from the spec: the [outcome] package is not among the
    sources.  [TotalAllocated] is the sum of all allocations of each
    asset, [TotalAllocatedFor] the sum of those to one destination and
    [DepositSafetyThreshold] the cumulative deposit of the participants
    ahead of the destination (the spec's
    [cumulativeDeposit(0..myIndex-1)]). *)
Definition TotalAllocated (e : Exit) : types.Funds :=
  foldl (λ funds sae, <[Asset sae := total (Allocations sae)]> funds) ∅ e.

Definition TotalAllocatedFor (e : Exit) (dest : types.Destination) : types.Funds :=
  foldl (λ funds sae, <[Asset sae := totalFor dest (Allocations sae)]> funds) ∅ e.

Definition DepositSafetyThreshold (e : Exit) (interest : types.Destination) : types.Funds :=
  foldl (λ funds sae, <[Asset sae := totalBefore interest (Allocations sae)]> funds) ∅ e.

End outcome.

Module state.

Record FixedPart : Type := mkFixedPart {
  fp_ChainId : Z;
  fp_Participants : list types.Address;
  fp_ChannelNonce : Z;
  fp_AppDefinition : types.Address;
  fp_ChallengeDuration : Z;
}.

Record State : Type := mkState {
  ChainId : Z;
  Participants : list types.Address;
  ChannelNonce : Z;
  AppDefinition : types.Address;
  ChallengeDuration : Z;
  AppData : list N;
  Outcome : outcome.Exit;
  TurnNum : N;
  IsFinal : bool;
}.

#[global] Instance FixedPart_eq_dec : EqDecision FixedPart.
Proof. solve_decision. Defined.
#[global] Instance State_eq_dec : EqDecision State.
Proof. solve_decision. Defined.

Definition getFixedPart (s : State) : FixedPart :=
  {| fp_ChainId := ChainId s;
     fp_Participants := Participants s;
     fp_ChannelNonce := ChannelNonce s;
     fp_AppDefinition := AppDefinition s;
     fp_ChallengeDuration := ChallengeDuration s |}.

Definition Clone (s : State) : State :=
  {| ChainId := ChainId s;
     Participants := Participants s;
     ChannelNonce := ChannelNonce s;
     AppDefinition := AppDefinition s;
     ChallengeDuration := ChallengeDuration s;
     AppData := AppData s;
     Outcome := Outcome s;
     TurnNum := TurnNum s;
     IsFinal := IsFinal s |}.

Definition withTurnNum (s : State) (t : N) : State :=
  {| ChainId := ChainId s;
     Participants := Participants s;
     ChannelNonce := ChannelNonce s;
     AppDefinition := AppDefinition s;
     ChallengeDuration := ChallengeDuration s;
     AppData := AppData s;
     Outcome := Outcome s;
     TurnNum := t;
     IsFinal := IsFinal s |}.

Definition withOutcome (s : State) (e : outcome.Exit) : State :=
  {| ChainId := ChainId s;
     Participants := Participants s;
     ChannelNonce := ChannelNonce s;
     AppDefinition := AppDefinition s;
     ChallengeDuration := ChallengeDuration s;
     AppData := AppData s;
     Outcome := e;
     TurnNum := TurnNum s;
     IsFinal := IsFinal s |}.

(** Modelled from the spec: [channelId = keccak256(fixedPart)].  The
    hash is idealised as the numbering of the fixed parts, cut to 32
    bytes. *)
Definition ChannelId (s : State) : types.Destination :=
  (Npos (encode (ChainId s, Participants s, ChannelNonce s,
                 AppDefinition s, ChallengeDuration s)) mod 2 ^ 256)%N.

(** *** Signatures

    Modelled from the spec: the crypto package is not among the
    sources.  Signing is idealised: a secret key is the number of the
    address it controls, a digest is the hashed content itself, and a
    signature records its signer and the digest signed, so that
    [recover (hash m) (sign (hash m) sk) = addressOf sk] and recovery
    against any other digest yields no participant. *)
Abbreviation SecretKey := N (only parsing).

Definition addressOf (sk : SecretKey) : types.Address := sk.

Inductive Digest : Type :=
| StateHash (s : State)
| VoucherHash (channelId : types.Destination) (amount : Z).

#[global] Instance Digest_eq_dec : EqDecision Digest.
Proof. solve_decision. Defined.

Record Signature : Type := mkSignature {
  sig_signer : types.Address;
  sig_digest : Digest;
}.

#[global] Instance Signature_eq_dec : EqDecision Signature.
Proof. solve_decision. Defined.

Definition sign (d : Digest) (sk : SecretKey) : Signature :=
  {| sig_signer := addressOf sk; sig_digest := d |}.

Definition recover (d : Digest) (sig : Signature) : option types.Address :=
  if decide (sig_digest sig = d) then Some (sig_signer sig) else None.

Definition Sign (s : State) (sk : SecretKey) : Signature := sign (StateHash s) sk.

Definition RecoverSigner (s : State) (sig : Signature) : option types.Address :=
  recover (StateHash s) sig.

(** *** Signed states: a state and the signatures by participant index *)
Record SignedState : Type := mkSignedState {
  ss_state : State;
  ss_sigs : gmap nat Signature;
}.

#[global] Instance SignedState_eq_dec : EqDecision SignedState.
Proof. solve_decision. Defined.

Definition NewSignedState (s : State) : SignedState :=
  {| ss_state := s; ss_sigs := ∅ |}.

(** The first index at which [a] occurs in [l]. *)
Fixpoint indexOf (a : types.Address) (l : list types.Address) : option nat :=
  match l with
  | [] => None
  | p :: rest => if decide (p = a) then Some O else S <$> indexOf a rest
  end.

(** Modelled from the spec: a state is signed by participant [i] iff
    the recovered address is [participants[i]]; the signature is filed
    under that index. *)
Definition AddSignature (ss : SignedState) (sig : Signature) : result SignedState :=
  match RecoverSigner (ss_state ss) sig with
  | None => Err "AddSignature failed to recover signer"
  | Some signer =>
      match indexOf signer (Participants (ss_state ss)) with
      | Some i => Ok {| ss_state := ss_state ss; ss_sigs := <[i := sig]> (ss_sigs ss) |}
      | None => Err "Signature does not match any participant"
      end
  end.

(** Modelled from the spec: [SignAndAdd] signs the state with [sk] and
    files the signature under the index of the signer. *)
Definition SignAndAdd (ss : SignedState) (sk : SecretKey) : result SignedState :=
  AddSignature ss (Sign (ss_state ss) sk).

Definition HasSignatureForParticipant (ss : SignedState) (i : nat) : bool :=
  bool_decide (is_Some (ss_sigs ss !! i)).

(** Signed by every participant. *)
Definition HasAllSignatures (ss : SignedState) : bool :=
  forallb (HasSignatureForParticipant ss) (seq 0 (length (Participants (ss_state ss)))).

End state.

(** ** Package [channel] *)
Module channel.

Definition PreFundTurnNum : N := 0.
Definition PostFundTurnNum : N := 1.

(** Modelled from the spec: the [channel] package is not among the
    sources.  The record is the spec's [Channel]: fixed part, my
    index, on-chain holdings, signed states by turn number and the
    latest supported turn (unset when no state is supported). *)
Record Channel : Type := mkChannel {
  Id : types.Destination;
  MyIndex : nat;
  OnChainFunding : types.Funds;
  FixedPart : state.FixedPart;
  SignedStateForTurnNum : gmap N state.SignedState;
  latestSupportedStateTurnNum : option N;
}.

(** [Channel{}] *)
Definition zero : Channel :=
  {| Id := 0%N;
     MyIndex := O;
     OnChainFunding := ∅;
     FixedPart := state.mkFixedPart 0 [] 0 0%N 0;
     SignedStateForTurnNum := ∅;
     latestSupportedStateTurnNum := None |}.

Definition Clone (c : Channel) : Channel :=
  {| Id := Id c;
     MyIndex := MyIndex c;
     OnChainFunding := types.Funds_Clone (OnChainFunding c);
     FixedPart := FixedPart c;
     SignedStateForTurnNum := SignedStateForTurnNum c;
     latestSupportedStateTurnNum := latestSupportedStateTurnNum c |}.

Definition withOnChainFunding (c : Channel) (holdings : types.Funds) : Channel :=
  {| Id := Id c;
     MyIndex := MyIndex c;
     OnChainFunding := holdings;
     FixedPart := FixedPart c;
     SignedStateForTurnNum := SignedStateForTurnNum c;
     latestSupportedStateTurnNum := latestSupportedStateTurnNum c |}.

(** The maximum turn number carrying a state signed by everyone. *)
Definition supportedTurn (states : gmap N state.SignedState) : option N :=
  foldr (λ '(t, ss) acc,
           if state.HasAllSignatures ss
           then Some (match acc with Some u => N.max t u | None => t end)
           else acc)
        None (map_to_list states).

Definition withSignedState (c : Channel) (t : N) (ss : state.SignedState) : Channel :=
  let states := <[t := ss]> (SignedStateForTurnNum c) in
  {| Id := Id c;
     MyIndex := MyIndex c;
     OnChainFunding := OnChainFunding c;
     FixedPart := FixedPart c;
     SignedStateForTurnNum := states;
     latestSupportedStateTurnNum := supportedTurn states |}.

(** Modelled from the spec: [addSignedState] validates that the fixed
    part matches, merges the signatures into the entry stored for the
    state's turn number, recomputes the latest supported turn and
    returns whether the add was new. *)
Definition AddSignedState (c : Channel) (ss : state.SignedState) : Channel * bool :=
  let s := state.ss_state ss in
  if negb (bool_decide (state.getFixedPart s = FixedPart c)) then (c, false)
  else
    match SignedStateForTurnNum c !! state.TurnNum s with
    | None => (withSignedState c (state.TurnNum s) ss, true)
    | Some stored =>
        if bool_decide (state.ss_state stored = s) then
          let merged := {| state.ss_state := s;
                           state.ss_sigs := state.ss_sigs stored ∪ state.ss_sigs ss |} in
          (withSignedState c (state.TurnNum s) merged, bool_decide (merged ≠ stored))
        else (c, false)
    end.

Definition AddSignedStates (c : Channel) (sss : list state.SignedState) : Channel :=
  foldl (λ c ss, fst (AddSignedState c ss)) c sss.

(** Signs [s] with [sk], merges the signature into the channel and
    returns the freshly signed state for the peers. *)
Definition SignAndAddState (c : Channel) (s : state.State) (sk : state.SecretKey)
  : result (Channel * state.SignedState) :=
  let sig := state.Sign s sk in
  match state.AddSignature (state.NewSignedState s) sig with
  | Err e => Err (wrap "could not add own signature " e)
  | Ok ss => Ok (fst (AddSignedState c ss), ss)
  end.

(** Modelled from the spec: signs the stored turn-0 state with [sk]
    and stores it; fails if no turn-0 state exists. *)
Definition SignAndAddPrefund (c : Channel) (sk : state.SecretKey)
  : result (Channel * state.SignedState) :=
  match SignedStateForTurnNum c !! PreFundTurnNum with
  | None => Err "no prefund state"
  | Some stored => SignAndAddState c (state.ss_state stored) sk
  end.

(** Modelled from the spec: analogous for turn 1. *)
Definition SignAndAddPostfund (c : Channel) (sk : state.SecretKey)
  : result (Channel * state.SignedState) :=
  match SignedStateForTurnNum c !! PostFundTurnNum with
  | None => Err "no postfund state"
  | Some stored => SignAndAddState c (state.ss_state stored) sk
  end.

(** Modelled from the spec: [latestSupportedState()] returns the state
    at the latest supported turn and fails if that is unset. *)
Definition LatestSupportedState (c : Channel) : result state.State :=
  match latestSupportedStateTurnNum c with
  | None => Err "no state is yet supported"
  | Some t =>
      match SignedStateForTurnNum c !! t with
      | Some ss => Ok (state.ss_state ss)
      | None => Err "no state is yet supported"
      end
  end.

Definition signedByMe (c : Channel) (t : N) : bool :=
  match SignedStateForTurnNum c !! t with
  | Some ss => state.HasSignatureForParticipant ss (MyIndex c)
  | None => false
  end.

Definition complete (c : Channel) (t : N) : bool :=
  match SignedStateForTurnNum c !! t with
  | Some ss => state.HasAllSignatures ss
  | None => false
  end.

Definition PreFundSignedByMe (c : Channel) : bool := signedByMe c PreFundTurnNum.
Definition PostFundSignedByMe (c : Channel) : bool := signedByMe c PostFundTurnNum.
Definition PreFundComplete (c : Channel) : bool := complete c PreFundTurnNum.
Definition PostFundComplete (c : Channel) : bool := complete c PostFundTurnNum.

(** Modelled from the spec: a channel is constructed from a prefund
    state (turn 0); it stores the unsigned prefund and postfund states
    and records zero holdings for every asset of the outcome (scenario
    1 of the spec starts funding from holdings 0). *)
Definition New (s : state.State) (myIndex : nat) : result Channel :=
  if negb (state.TurnNum s =? PreFundTurnNum)%N
  then Err "a channel must be constructed with a prefund state"
  else
    Ok {| Id := state.ChannelId s;
          MyIndex := myIndex;
          OnChainFunding := (λ _, 0%Z) <$> outcome.TotalAllocated (state.Outcome s);
          FixedPart := state.getFixedPart s;
          SignedStateForTurnNum :=
            <[PostFundTurnNum := state.NewSignedState (state.withTurnNum s PostFundTurnNum)]>
              {[PreFundTurnNum := state.NewSignedState s]};
          latestSupportedStateTurnNum := None |}.

(** The spec's invariant that every signed state shares the fixed part
    of the channel, each filed under its own turn number. *)
Definition wf (c : Channel) : Prop :=
  map_Forall (λ t ss, state.TurnNum (state.ss_state ss) = t
                      ∧ state.getFixedPart (state.ss_state ss) = FixedPart c)
             (SignedStateForTurnNum c).

#[global] Instance wf_dec c : Decision (wf c).
Proof. unfold wf. apply _. Defined.

End channel.

(** ** Package [channel/consensus_channel]: the ledger outcome *)
Module consensus_channel.

Record Balance : Type := mkBalance {
  destination : types.Destination;
  amount : Z;
}.

Record Guarantee : Type := mkGuarantee {
  g_amount : Z;
  g_target : types.Destination;
  g_left : types.Destination;
  g_right : types.Destination;
}.

Definition NewGuarantee (amount : Z) (target left right : types.Destination) : Guarantee :=
  {| g_amount := amount; g_target := target; g_left := left; g_right := right |}.

Definition Target (g : Guarantee) : types.Destination := g_target g.

(** [guarantees] is keyed by the target destination. *)
Record LedgerOutcome : Type := mkLedgerOutcome {
  assetAddress : types.Address;
  left : Balance;
  right : Balance;
  guarantees : gmap N Guarantee;
}.

Record Add : Type := mkAdd {
  Guarantee_ : Guarantee;
  LeftDeposit : Z;
}.

Record Remove : Type := mkRemove {
  Target_ : types.Destination;
  LeftAmount : Z;
}.

Inductive ProposalBody : Type :=
| ToAdd (a : Add)
| ToRemove (r : Remove).

Record Proposal : Type := mkProposal {
  LedgerID : types.Destination;
  body : ProposalBody;
}.

Definition NewAddProposal (ledgerId : types.Destination) (g : Guarantee) (leftDeposit : Z)
  : Proposal :=
  {| LedgerID := ledgerId; body := ToAdd {| Guarantee_ := g; LeftDeposit := leftDeposit |} |}.

Definition NewRemoveProposal (ledgerId target : types.Destination) (leftAmount : Z)
  : Proposal :=
  {| LedgerID := ledgerId; body := ToRemove {| Target_ := target; LeftAmount := leftAmount |} |}.

Record SignedProposal : Type := mkSignedProposal {
  sp_Signature : state.Signature;
  sp_Proposal : Proposal;
  sp_TurnNum : N;
}.

Definition withBalance (b : Balance) (a : Z) : Balance :=
  {| destination := destination b; amount := a |}.

(** Modelled from the spec: the [consensus_channel] package is not
    among the sources.  An [Add{guarantee(target, amount), leftDeposit}]
    is legal on [(L, R, G)] when [target ∉ G], [leftDeposit ≤ amount],
    [L ≥ leftDeposit] and [R ≥ amount − leftDeposit]; it yields
    [L − leftDeposit], [R − (amount − leftDeposit)] and
    [G ∪ {target → guarantee}]. *)
Definition applyAdd (lo : LedgerOutcome) (p : Add) : result LedgerOutcome :=
  let g := Guarantee_ p in
  if bool_decide (is_Some (guarantees lo !! g_target g))
  then Err "duplicate guarantee"
  else if types.Gt (LeftDeposit p) (g_amount g)
  then Err "left deposit exceeds the guarantee"
  else if types.Gt (LeftDeposit p) (amount (left lo))
  then Err "insufficient funds on the left"
  else if types.Gt (g_amount g - LeftDeposit p)%Z (amount (right lo))
  then Err "insufficient funds on the right"
  else
    Ok {| assetAddress := assetAddress lo;
          left := withBalance (left lo) (amount (left lo) - LeftDeposit p)%Z;
          right := withBalance (right lo)
                     (amount (right lo) - (g_amount g - LeftDeposit p))%Z;
          guarantees := <[g_target g := g]> (guarantees lo) |}.

(** Modelled from the spec: a [Remove{target, leftAmount}] is legal
    when [target ∈ G] with amount [a] and [0 ≤ leftAmount ≤ a]; it
    yields [L + leftAmount], [R + (a − leftAmount)] and
    [G \ {target}]. *)
Definition applyRemove (lo : LedgerOutcome) (p : Remove) : result LedgerOutcome :=
  match guarantees lo !! Target_ p with
  | None => Err "guarantee not found"
  | Some g =>
      if types.Gt 0%Z (LeftAmount p)
      then Err "negative left amount"
      else if types.Gt (LeftAmount p) (g_amount g)
      then Err "cannot remove more than the guarantee"
      else
        Ok {| assetAddress := assetAddress lo;
              left := withBalance (left lo) (amount (left lo) + LeftAmount p)%Z;
              right := withBalance (right lo)
                         (amount (right lo) + (g_amount g - LeftAmount p))%Z;
              guarantees := delete (Target_ p) (guarantees lo) |}
  end.

Definition applyProposal (lo : LedgerOutcome) (p : Proposal) : result LedgerOutcome :=
  match body p with
  | ToAdd a => applyAdd lo a
  | ToRemove r => applyRemove lo r
  end.

(** The funds locked in guarantees, and the funds of the whole ledger. *)
Definition guaranteed (lo : LedgerOutcome) : Z :=
  map_fold (λ _ g acc, (g_amount g + acc)%Z) 0%Z (guarantees lo).

Definition ledgerTotal (lo : LedgerOutcome) : Z :=
  (amount (left lo) + amount (right lo) + guaranteed lo)%Z.

(** The two-party ledger of the spec. *)
Record ConsensusChannel : Type := mkConsensusChannel {
  Id : types.Destination;
  MyIndex : nat;
  fp : state.FixedPart;
  currentTurnNum : N;
  current_outcome : LedgerOutcome;
  proposalQueue : list SignedProposal;
}.

End consensus_channel.

(** ** Package [payments]: vouchers and the voucher manager *)
Module payments.

(** A voucher carries the cumulative amount paid on its channel. *)
Record Voucher : Type := mkVoucher {
  ChannelId : types.Destination;
  Amount : Z;
  Signature : option state.Signature;
}.

(** [voucher.Sign(pk)]: signs the digest of channel id and amount. *)
Definition Sign (v : Voucher) (pk : state.SecretKey) : Voucher :=
  {| ChannelId := ChannelId v;
     Amount := Amount v;
     Signature := Some (state.sign (state.VoucherHash (ChannelId v) (Amount v)) pk) |}.

Definition RecoverSigner (v : Voucher) : option types.Address :=
  sig ← Signature v;
  state.recover (state.VoucherHash (ChannelId v) (Amount v)) sig.

Record paymentStatus : Type := mkPaymentStatus {
  channelPayer : types.Address;
  channelPayee : types.Address;
  startingBalance : Z;
  largestVoucher : Voucher;
}.

Record VoucherManager : Type := mkVoucherManager {
  channels : gmap N paymentStatus;
  me : types.Address;
}.

Record Balance : Type := mkBalance {
  Remaining : Z;
  Paid : Z;
}.

Definition NewVoucherManager (me : types.Address) : VoucherManager :=
  {| channels := ∅; me := me |}.

Definition withChannel (vm : VoucherManager) (channelId : types.Destination)
           (data : paymentStatus) : VoucherManager :=
  {| channels := <[channelId := data]> (channels vm); me := me vm |}.

Definition withLargest (data : paymentStatus) (v : Voucher) : paymentStatus :=
  {| channelPayer := channelPayer data;
     channelPayee := channelPayee data;
     startingBalance := startingBalance data;
     largestVoucher := v |}.

Definition ChannelRegistered (vm : VoucherManager) (channelId : types.Destination) : bool :=
  bool_decide (is_Some (channels vm !! channelId)).

(** Modelled from the spec: the voucher manager is not among the
    sources, only its test [TestPaymentManager] is.  [Register] refuses
    a channel that is already registered. *)
Definition Register (vm : VoucherManager) (channelId : types.Destination)
           (payer payee : types.Address) (startingBalance : Z) : result VoucherManager :=
  match channels vm !! channelId with
  | Some _ => Err "channel already registered"
  | None =>
      Ok (withChannel vm channelId
            {| channelPayer := payer;
               channelPayee := payee;
               startingBalance := startingBalance;
               largestVoucher := {| ChannelId := channelId; Amount := 0; Signature := None |} |})
  end.

(** Modelled from the spec: [pay] increases the cumulative amount paid
    by [amount], fails if that exceeds the starting balance, and
    returns a voucher for the new cumulative amount signed with [pk]. *)
Definition Pay (vm : VoucherManager) (channelId : types.Destination) (amount : Z)
           (pk : state.SecretKey) : result (VoucherManager * Voucher) :=
  match channels vm !! channelId with
  | None => Err "channel not registered"
  | Some data =>
      let cumulative := (Amount (largestVoucher data) + amount)%Z in
      if types.Gt cumulative (startingBalance data)
      then Err "unable to pay amount: insufficient funds"
      else
        let voucher := Sign {| ChannelId := channelId; Amount := cumulative;
                               Signature := None |} pk in
        Ok (withChannel vm channelId (withLargest data voucher), voucher)
  end.

(** Modelled from the spec: the voucher manager is not among the
    sources, only its test [TestPaymentManager] is.  [Receive] verifies
    that the signer is the registered payer and rejects a voucher above
    the starting balance.  On a strict increase it stores the voucher
    and returns its amount.  Otherwise it returns the stored total:
    the test receives the first voucher (20) again once 40 is stored
    and expects no error and 40 ("Receiving old vouchers is ok"), so a
    voucher below the stored largest is answered like an equal one. *)
Definition Receive (vm : VoucherManager) (voucher : Voucher)
  : VoucherManager * result Z :=
  match channels vm !! ChannelId voucher with
  | None => (vm, Err "channel not registered")
  | Some data =>
      match RecoverSigner voucher with
      | None => (vm, Err "could not recover the signer")
      | Some signer =>
          if negb (bool_decide (signer = channelPayer data))
          then (vm, Err "wrong signer")
          else if types.Gt (Amount voucher) (startingBalance data)
          then (vm, Err "channel has insufficient funds")
          else if types.Gt (Amount voucher) (Amount (largestVoucher data))
          then (withChannel vm (ChannelId voucher) (withLargest data voucher),
                Ok (Amount voucher))
          else (vm, Ok (Amount (largestVoucher data)))
      end
  end.

(** Modelled from the spec: remaining = starting − largest, paid =
    largest. *)
Definition Balance_ (vm : VoucherManager) (channelId : types.Destination) : result Balance :=
  match channels vm !! channelId with
  | None => Err "channel not found"
  | Some data =>
      Ok {| Remaining := (startingBalance data - Amount (largestVoucher data))%Z;
            Paid := Amount (largestVoucher data) |}
  end.

(** The total paid that the manager records for a channel. *)
Definition paid (vm : VoucherManager) (channelId : types.Destination) : option Z :=
  (λ data, Amount (largestVoucher data)) <$> channels vm !! channelId.

Definition receiveAll (vm : VoucherManager) (vs : list Voucher) : VoucherManager :=
  foldl (λ vm v, fst (Receive vm v)) vm vs.

End payments.

(** ** Package [protocols] *)
Module protocols.

Inductive ObjectiveStatus : Type :=
| Unapproved
| Approved
| Rejected
| Completed.

#[global] Instance ObjectiveStatus_eq_dec : EqDecision ObjectiveStatus.
Proof. solve_decision. Defined.

(** The status as the integer that it is in Go. *)
Definition ObjectiveStatus_int (s : ObjectiveStatus) : Z :=
  match s with
  | Unapproved => 0
  | Approved => 1
  | Rejected => 2
  | Completed => 3
  end.

Definition ObjectiveStatus_of_int (n : Z) : option ObjectiveStatus :=
  match n with
  | 0 => Some Unapproved
  | 1 => Some Approved
  | 2 => Some Rejected
  | 3 => Some Completed
  | _ => None
  end%Z.

Abbreviation ObjectiveId := string (only parsing).
Abbreviation WaitingFor := string (only parsing).

(** The payload of every fund and defund protocol is a signed state;
    its JSON encoding is elided. *)
Record ObjectivePayload : Type := mkObjectivePayload {
  PayloadData : state.SignedState;
  ObjectiveId_ : ObjectiveId;
  Type_ : string;
}.

Record Message : Type := mkMessage {
  To : types.Address;
  ObjectivePayloads : list ObjectivePayload;
  LedgerProposals : list consensus_channel.SignedProposal;
  Payments : list payments.Voucher;
  RejectedObjectives : list ObjectiveId;
}.

Record ChainTransaction : Type := mkChainTransaction {
  ChannelId : types.Destination;
  Deposit : types.Funds;
}.

Record SideEffects : Type := mkSideEffects {
  MessagesToSend : list Message;
  TransactionsToSubmit : list ChainTransaction;
  ProposalsToProcess : list consensus_channel.Proposal;
}.

(** [protocols.SideEffects{}] *)
Definition noSideEffects : SideEffects :=
  {| MessagesToSend := []; TransactionsToSubmit := []; ProposalsToProcess := [] |}.

Definition appendMessages (se : SideEffects) (ms : list Message) : SideEffects :=
  {| MessagesToSend := MessagesToSend se ++ ms;
     TransactionsToSubmit := TransactionsToSubmit se;
     ProposalsToProcess := ProposalsToProcess se |}.

Definition appendTransaction (se : SideEffects) (tx : ChainTransaction) : SideEffects :=
  {| MessagesToSend := MessagesToSend se;
     TransactionsToSubmit := TransactionsToSubmit se ++ [tx];
     ProposalsToProcess := ProposalsToProcess se |}.

Record ObjectiveEvent : Type := mkObjectiveEvent {
  ev_ObjectiveId : ObjectiveId;
  ev_SignedStates : list state.SignedState;
  ev_Holdings : option types.Funds;
}.

(** A request to set funds aside in a ledger for the channel
    [Destination], taken in halves from [Left] and [Right]. *)
Record LedgerRequest : Type := mkLedgerRequest {
  lr_LedgerId : types.Destination;
  lr_Destination : types.Destination;
  lr_Amount : types.Funds;
  lr_Left : types.Destination;
  lr_Right : types.Destination;
}.

(** The participants other than the one at [myIndex], in order. *)
Fixpoint others (i : nat) (myIndex : nat) (participants : list types.Address)
  : list types.Address :=
  match participants with
  | [] => []
  | p :: rest =>
      if decide (i = myIndex) then others (S i) myIndex rest
      else p :: others (S i) myIndex rest
  end.

(** Modelled from the spec: the signed state is broadcast, one message
    to every participant other than the sender. *)
Definition CreateSignedStateMessages (id : ObjectiveId) (ss : state.SignedState)
           (myIndex : nat) : list Message :=
  (λ p, {| To := p;
           ObjectivePayloads := [{| PayloadData := ss; ObjectiveId_ := id; Type_ := "" |}];
           LedgerProposals := [];
           Payments := [];
           RejectedObjectives := [] |})
    <$> others O myIndex (state.Participants (state.ss_state ss)).

(** Modelled from the spec: one rejection notice to every other
    participant. *)
Definition CreateRejectionNoticeMessage (id : ObjectiveId) (recipients : list types.Address)
  : list Message :=
  (λ p, {| To := p;
           ObjectivePayloads := [];
           LedgerProposals := [];
           Payments := [];
           RejectedObjectives := [id] |}) <$> recipients.

End protocols.

(** ** Package [protocols/directfund] *)
Module directfund.

Definition WaitingForCompletePrefund : protocols.WaitingFor := "WaitingForCompletePrefund".
Definition WaitingForMyTurnToFund : protocols.WaitingFor := "WaitingForMyTurnToFund".
Definition WaitingForCompleteFunding : protocols.WaitingFor := "WaitingForCompleteFunding".
Definition WaitingForCompletePostFund : protocols.WaitingFor := "WaitingForCompletePostFund".
Definition WaitingForNothing : protocols.WaitingFor := "WaitingForNothing".

Definition ObjectivePrefix : string := "DirectFunding-".

Definition ErrNotApproved : error := "objective not approved".

Record Objective : Type := mkObjective {
  Status : protocols.ObjectiveStatus;
  C : channel.Channel;
  myDepositSafetyThreshold : types.Funds;
  myDepositTarget : types.Funds;
  fullyFundedThreshold : types.Funds;
}.

(** The channel pointer replaced by the channel's id. *)
Record jsonObjective : Type := mkJsonObjective {
  json_Status : protocols.ObjectiveStatus;
  json_C : types.Destination;
  MyDepositSafetyThreshold : types.Funds;
  MyDepositTarget : types.Funds;
  FullyFundedThreshold : types.Funds;
}.

Definition withC (o : Objective) (c : channel.Channel) : Objective :=
  {| Status := Status o;
     C := c;
     myDepositSafetyThreshold := myDepositSafetyThreshold o;
     myDepositTarget := myDepositTarget o;
     fullyFundedThreshold := fullyFundedThreshold o |}.

Definition withStatus (o : Objective) (s : protocols.ObjectiveStatus) : Objective :=
  {| Status := s;
     C := C o;
     myDepositSafetyThreshold := myDepositSafetyThreshold o;
     myDepositTarget := myDepositTarget o;
     fullyFundedThreshold := fullyFundedThreshold o |}.

Definition NewObjective (preApprove : bool) (initialState : state.State)
           (myAddress : types.Address) : result Objective :=
  if negb (state.TurnNum initialState =? 0)%N
  then Err "cannot construct direct fund objective without prefund state"
  else if state.IsFinal initialState
  then Err "attempted to initiate new direct-funding objective with IsFinal == true"
  else
    let status := if preApprove then protocols.Approved else protocols.Unapproved in
    match state.indexOf myAddress (state.Participants initialState) with
    | None => Err "my address not found in participants"
    | Some myIndex =>
        match channel.New initialState myIndex with
        | Err e => Err (wrap "failed to initialize channel for direct-fund objective: " e)
        | Ok c =>
            let myAllocatedAmount :=
              outcome.TotalAllocatedFor (state.Outcome initialState)
                (types.AddressToDestination myAddress) in
            let safety :=
              outcome.DepositSafetyThreshold (state.Outcome initialState)
                (types.AddressToDestination myAddress) in
            Ok {| Status := status;
                  C := c;
                  myDepositSafetyThreshold := safety;
                  myDepositTarget := types.Funds_Add safety myAllocatedAmount;
                  fullyFundedThreshold := outcome.TotalAllocated (state.Outcome initialState) |}
        end
    end.

Definition Id (o : Objective) : protocols.ObjectiveId :=
  ObjectivePrefix +:+ types.Destination_String (channel.Id (C o)).

(** A deep copy of the receiver. *)
Definition clone (o : Objective) : Objective :=
  {| Status := Status o;
     C := channel.Clone (C o);
     myDepositSafetyThreshold := types.Funds_Clone (myDepositSafetyThreshold o);
     myDepositTarget := types.Funds_Clone (myDepositTarget o);
     fullyFundedThreshold := types.Funds_Clone (fullyFundedThreshold o) |}.

Definition Approve (o : Objective) : Objective :=
  withStatus (clone o) protocols.Approved.

Definition Reject (o : Objective) : Objective :=
  withStatus (clone o) protocols.Rejected.

Definition Update (o : Objective) (event : protocols.ObjectiveEvent)
  : Objective * option error :=
  if negb (bool_decide (Id o = protocols.ev_ObjectiveId event))
  then (o, Some ("event and objective Ids do not match: "
                   +:+ protocols.ev_ObjectiveId event +:+ " and " +:+ Id o
                   +:+ " respectively"))
  else
    let updated := clone o in
    let updated :=
      withC updated (channel.AddSignedStates (C updated) (protocols.ev_SignedStates event)) in
    let updated :=
      match protocols.ev_Holdings event with
      | Some holdings => withC updated (channel.withOnChainFunding (C updated) holdings)
      | None => updated
      end in
    (updated, None).

(** The loops below range over the entries of a Go map, whose order is
    unspecified; they are written over the list of entries. *)

(** True if the recorded holdings reach the fully-funded threshold. *)
Fixpoint fundingComplete_loop (entries : list (N * Z)) (holdings : types.Funds) : bool :=
  match entries with
  | [] => true
  | (asset, threshold) :: rest =>
      match holdings !! asset with
      | None => false
      | Some chainHolding =>
          if types.Gt threshold chainHolding then false
          else fundingComplete_loop rest holdings
      end
  end.

Definition fundingComplete (o : Objective) : bool :=
  fundingComplete_loop (map_to_list (fullyFundedThreshold o))
                       (channel.OnChainFunding (C o)).

(** True if the recorded holdings reach the safety threshold. *)
Fixpoint safeToDeposit_loop (entries : list (N * Z)) (holdings : types.Funds)
  : may_panic bool :=
  match entries with
  | [] => Done true
  | (asset, safetyThreshold) :: rest =>
      match holdings !! asset with
      | None => Panicked "nil chainHolding for asset in myDepositSafetyThreshold"
      | Some chainHolding =>
          if types.Gt safetyThreshold chainHolding then Done false
          else safeToDeposit_loop rest holdings
      end
  end.

Definition safeToDeposit (o : Objective) : may_panic bool :=
  safeToDeposit_loop (map_to_list (myDepositSafetyThreshold o))
                     (channel.OnChainFunding (C o)).

(** The amount to deposit given the recorded holdings. *)
Fixpoint amountToDeposit_loop (entries : list (N * Z)) (holdings : types.Funds)
         (deposits : types.Funds) : may_panic types.Funds :=
  match entries with
  | [] => Done deposits
  | (asset, target) :: rest =>
      match holdings !! asset with
      | None => Panicked "nil chainHolding for asset in myDepositTarget"
      | Some holding =>
          amountToDeposit_loop rest holdings (<[asset := (target - holding)%Z]> deposits)
      end
  end.

Definition amountToDeposit (o : Objective) : may_panic types.Funds :=
  amountToDeposit_loop (map_to_list (myDepositTarget o))
                       (channel.OnChainFunding (C o)) ∅.

Abbreviation CrankResult :=
  (Objective * protocols.SideEffects * protocols.WaitingFor * option error)%type
  (only parsing).

(** Signs the prefund or postfund state unless it is signed already:
    the updated objective and side effects, or the signing error. *)
Definition signUnlessSigned
           (signedByMe : channel.Channel → bool)
           (signAndAdd : channel.Channel → state.SecretKey
                         → result (channel.Channel * state.SignedState))
           (updated : Objective) (sideEffects : protocols.SideEffects)
           (secretKey : state.SecretKey)
  : result (Objective * protocols.SideEffects) :=
  if negb (signedByMe (C updated)) then
    match signAndAdd (C updated) secretKey with
    | Err e => Err e
    | Ok (c, ss) =>
        let updated := withC updated c in
        let messages :=
          protocols.CreateSignedStateMessages (Id updated) ss (channel.MyIndex (C updated)) in
        Ok (updated, protocols.appendMessages sideEffects messages)
    end
  else Ok (updated, sideEffects).

(** [Crank] inspects the extended state and declares the effects to be
    executed. *)
Definition Crank (o : Objective) (secretKey : state.SecretKey) : may_panic CrankResult :=
  let updated := clone o in
  let sideEffects := protocols.noSideEffects in
  (* Input validation *)
  if negb (bool_decide (Status updated = protocols.Approved))
  then Done (updated, protocols.noSideEffects, WaitingForNothing, Some ErrNotApproved)
  else
    (* Prefunding *)
    match signUnlessSigned channel.PreFundSignedByMe channel.SignAndAddPrefund
                           updated sideEffects secretKey with
    | Err e =>
        Done (updated, protocols.noSideEffects, WaitingForCompletePrefund,
              Some (wrap "could not sign prefund " e))
    | Ok (updated, sideEffects) =>
        if negb (channel.PreFundComplete (C updated))
        then Done (updated, sideEffects, WaitingForCompletePrefund, None)
        else
          (* Funding *)
          let fundingComplete := fundingComplete updated in
          match amountToDeposit updated with
          | Panicked msg => Panicked msg
          | Done amountToDeposit =>
          match safeToDeposit updated with
          | Panicked msg => Panicked msg
          | Done safeToDeposit =>
              if negb fundingComplete && negb safeToDeposit
              then Done (updated, sideEffects, WaitingForMyTurnToFund, None)
              else
                let sideEffects :=
                  if negb fundingComplete && safeToDeposit
                     && types.Funds_IsNonZero amountToDeposit
                  then
                    let deposit :=
                      {| protocols.ChannelId := channel.Id (C updated);
                         protocols.Deposit := amountToDeposit |} in
                    protocols.appendTransaction sideEffects deposit
                  else sideEffects in
                if negb fundingComplete
                then Done (updated, sideEffects, WaitingForCompleteFunding, None)
                else
                  (* Postfunding *)
                  match signUnlessSigned channel.PostFundSignedByMe
                                         channel.SignAndAddPostfund
                                         updated sideEffects secretKey with
                  | Err e =>
                      Done (updated, protocols.noSideEffects, WaitingForCompletePostFund,
                            Some (wrap "could not sign postfund " e))
                  | Ok (updated, sideEffects) =>
                      if negb (channel.PostFundComplete (C updated))
                      then Done (updated, sideEffects, WaitingForCompletePostFund, None)
                      else
                        (* Completion *)
                        Done (updated, sideEffects, WaitingForNothing, None)
                  end
          end
          end
    end.

Definition Channels (o : Objective) : list channel.Channel := [C o].

(** True if the objective id is for a direct fund objective. *)
Definition IsDirectFundObjective (id : protocols.ObjectiveId) : bool :=
  String.prefix ObjectivePrefix id.

(** Constructs a direct funding objective from a message.  Of the
    message only [m.SignedStates] is read, which the message type of the
    engine (a later revision) no longer has: the function takes the
    field. *)
Definition ConstructObjectiveFromMessage (m_SignedStates : list state.SignedState)
           (myAddress : types.Address) : result Objective :=
  match m_SignedStates with
  | [] => Err "expected at least one signed state in the message"
  | first :: _ =>
      let initialState := state.ss_state first in
      match NewObjective true initialState myAddress with
      | Err e => Err (wrap "could not create new objective: " e)
      | Ok objective => Ok objective
      end
  end.

(** Modelled from the spec: the constructor that the engine calls on a
    payload is not among the sources ([ConstructObjectiveFromMessage]
    is, for an older message format).  The objective is built from the
    state of the signed state in the payload. *)
Definition ConstructFromPayload (preApprove : bool) (p : protocols.ObjectivePayload)
           (myAddress : types.Address) : result Objective :=
  match NewObjective preApprove (state.ss_state (protocols.PayloadData p)) myAddress with
  | Err e => Err (wrap "could not create new objective: " e)
  | Ok objective => Ok objective
  end.

(** The channel that the objective holds the ownership lock of. *)
Definition OwnsChannel (o : Objective) : types.Destination := channel.Id (C o).

(** Modelled from the spec: [CreateConsensusChannel] is not among the
    sources.  The ledger is derived from the fully signed postfund
    state of the channel: same id and fixed part, the turn number of
    the postfund state, the two allocations as left and right balance
    and an empty proposal queue (scenario 1 of the spec). *)
Definition CreateConsensusChannel (dfo : Objective)
  : result consensus_channel.ConsensusChannel :=
  let ledger := C dfo in
  if negb (channel.PostFundComplete ledger)
  then Err "expected funding for channel to be complete"
  else
    match channel.SignedStateForTurnNum ledger !! channel.PostFundTurnNum with
    | None => Err "expected funding for channel to be complete"
    | Some signedPostFund =>
        match state.Outcome (state.ss_state signedPostFund) with
        | [assetExit] =>
            match outcome.Allocations assetExit with
            | [l; r] =>
                Ok {| consensus_channel.Id := channel.Id ledger;
                      consensus_channel.MyIndex := channel.MyIndex ledger;
                      consensus_channel.fp := channel.FixedPart ledger;
                      consensus_channel.currentTurnNum :=
                        state.TurnNum (state.ss_state signedPostFund);
                      consensus_channel.current_outcome :=
                        {| consensus_channel.assetAddress := outcome.Asset assetExit;
                           consensus_channel.left :=
                             consensus_channel.mkBalance (outcome.Destination l)
                                                         (outcome.Amount l);
                           consensus_channel.right :=
                             consensus_channel.mkBalance (outcome.Destination r)
                                                         (outcome.Amount r);
                           consensus_channel.guarantees := ∅ |};
                      consensus_channel.proposalQueue := [] |}
            | _ => Err "a ledger outcome has a left and a right balance"
            end
        | _ => Err "a consensus channel only supports a single asset"
        end
    end.

(** *** Serialization

    What [json.Marshal] and [json.Unmarshal] do on a [jsonObjective]:
    an object with one member per field, the status as a number, the
    channel id as its text and each [Funds] as an object; a member that
    is absent leaves the zero value of its field. *)
Definition json_Marshal (j : jsonObjective) : result json.value :=
  Ok (json.Object
        [("Status", json.Number (protocols.ObjectiveStatus_int (json_Status j)));
         ("C", json.Text (types.Destination_String (json_C j)));
         ("MyDepositSafetyThreshold", json.marshalFunds (MyDepositSafetyThreshold j));
         ("MyDepositTarget", json.marshalFunds (MyDepositTarget j));
         ("FullyFundedThreshold", json.marshalFunds (FullyFundedThreshold j))]).

Definition unmarshalStatus (j : option json.value) : result protocols.ObjectiveStatus :=
  match j with
  | None => Ok protocols.Unapproved
  | Some (json.Number n) =>
      match protocols.ObjectiveStatus_of_int n with
      | Some s => Ok s
      | None => Err "json: cannot unmarshal number into Go value of type protocols.ObjectiveStatus"
      end
  | Some _ => Err "json: cannot unmarshal into Go value of type protocols.ObjectiveStatus"
  end.

Definition unmarshalDestination (j : option json.value) : result types.Destination :=
  match j with
  | None => Ok 0%N
  | Some (json.Text s) =>
      match types.Destination_UnmarshalText s with
      | Some d => Ok d
      | None => Err "json: cannot unmarshal hex string into Go value of type types.Destination"
      end
  | Some _ => Err "json: cannot unmarshal into Go value of type types.Destination"
  end.

Definition unmarshalFunds (j : option json.value) : result types.Funds :=
  match j with
  | None => Ok ∅
  | Some j => json.unmarshalFunds j
  end.

Definition json_Unmarshal (data : json.value) : result jsonObjective :=
  match data with
  | json.Object members =>
      match unmarshalStatus (json.member "Status" members) with
      | Err e => Err e
      | Ok status =>
      match unmarshalDestination (json.member "C" members) with
      | Err e => Err e
      | Ok c =>
      match unmarshalFunds (json.member "MyDepositSafetyThreshold" members) with
      | Err e => Err e
      | Ok safety =>
      match unmarshalFunds (json.member "MyDepositTarget" members) with
      | Err e => Err e
      | Ok target =>
      match unmarshalFunds (json.member "FullyFundedThreshold" members) with
      | Err e => Err e
      | Ok funded =>
          Ok {| json_Status := status;
                json_C := c;
                MyDepositSafetyThreshold := safety;
                MyDepositTarget := target;
                FullyFundedThreshold := funded |}
      end end end end end
  | _ => Err "json: cannot unmarshal into Go value of type directfund.jsonObjective"
  end.

(** A JSON representation of the objective.  Marshal and Unmarshal lose
    all channel data other than the id. *)
Definition MarshalJSON (o : Objective) : result json.value :=
  let jsonDFO :=
    {| json_Status := Status o;
       json_C := channel.Id (C o);
       MyDepositSafetyThreshold := myDepositSafetyThreshold o;
       MyDepositTarget := myDepositTarget o;
       FullyFundedThreshold := fullyFundedThreshold o |} in
  json_Marshal jsonDFO.

(** [o] is the receiver before the call; the result is the receiver
    after it, or the decoding error. *)
Definition UnmarshalJSON (o : Objective) (data : json.value) : result Objective :=
  match data with
  | json.Null => Ok o
  | _ =>
      match json_Unmarshal data with
      | Err e => Err e
      | Ok jsonDFO =>
          let c := {| channel.Id := json_C jsonDFO;
                      channel.MyIndex := channel.MyIndex channel.zero;
                      channel.OnChainFunding := channel.OnChainFunding channel.zero;
                      channel.FixedPart := channel.FixedPart channel.zero;
                      channel.SignedStateForTurnNum :=
                        channel.SignedStateForTurnNum channel.zero;
                      channel.latestSupportedStateTurnNum :=
                        channel.latestSupportedStateTurnNum channel.zero |} in
          Ok {| Status := json_Status jsonDFO;
                C := c;
                myDepositSafetyThreshold := MyDepositSafetyThreshold jsonDFO;
                myDepositTarget := MyDepositTarget jsonDFO;
                fullyFundedThreshold := FullyFundedThreshold jsonDFO |}
      end
  end.

End directfund.

(** ** The interface [protocols.Objective], as the engine uses it *)
Module objective.

(** The methods of the Go interface and the type assertions that the
    engine makes on its values.  Of the four protocols only
    direct-fund is among the sources; [constructOther] stands for the
    constructors of the other three and [paymentChannel] for the data
    of a virtual-fund objective that is registered with the voucher
    manager (channel id, payer, payee, starting balance).

    Modelled from the spec: an objective is persisted with its channel
    references as ids only.  [dropChannelData] is the form in which it
    is persisted and [loadChannelData] fills the channels of that form
    in again from the channels given by id; it has no result when one
    of them is missing. *)
Class Objective (O : Type) : Type := {
  Id : O → protocols.ObjectiveId;
  GetStatus : O → protocols.ObjectiveStatus;
  Approve : O → O;
  Reject : O → O * protocols.SideEffects;
  Update : O → protocols.ObjectivePayload → result O;
  Crank : O → state.SecretKey
          → may_panic (O * protocols.SideEffects * protocols.WaitingFor * option error);
  Related : O → list channel.Channel;
  OwnsChannel : O → types.Destination;
  ofDirectFund : directfund.Objective → O;
  asDirectFund : O → option directfund.Objective;
  asDirectDefund : O → option types.Destination;
  ReceiveProposal : O → option (consensus_channel.SignedProposal → result O);
  constructOther : protocols.ObjectiveId → protocols.ObjectivePayload → types.Address
                   → result O;
  paymentChannel : O → option (types.Destination * types.Address * types.Address * Z);
  dropChannelData : O → O;
  loadChannelData : O → (types.Destination → option channel.Channel) → option O;
}.

(** What the engine relies on when it rejects an objective. *)
Class RejectLaws (O : Type) `{!Objective O} : Prop := {
  Reject_status : ∀ o : O, GetStatus (Reject o).1 = protocols.Rejected;
  Reject_Id : ∀ o : O, Id (Reject o).1 = Id o;
}.

(** What the store relies on: an objective is the form in which it is
    persisted, filled in from channels that hold the channels it
    relates to. *)
Class PersistLaws (O : Type) `{!Objective O} : Prop := {
  load_drop :
    ∀ (o : O) (channels : gmap N channel.Channel),
      loadChannelData (dropChannelData o)
        (λ id, foldl (λ m c, <[channel.Id c := c]> m) channels (Related o) !! id)
      = Some o;
}.

(** A direct-fund objective with the channel's id for its channel: what
    [MarshalJSON] followed by [UnmarshalJSON] keeps. *)
Definition directfund_dropChannelData (o : directfund.Objective) : directfund.Objective :=
  {| directfund.Status := directfund.Status o;
     directfund.C :=
       {| channel.Id := channel.Id (directfund.C o);
          channel.MyIndex := channel.MyIndex channel.zero;
          channel.OnChainFunding := channel.OnChainFunding channel.zero;
          channel.FixedPart := channel.FixedPart channel.zero;
          channel.SignedStateForTurnNum := channel.SignedStateForTurnNum channel.zero;
          channel.latestSupportedStateTurnNum :=
            channel.latestSupportedStateTurnNum channel.zero |};
     directfund.myDepositSafetyThreshold := directfund.myDepositSafetyThreshold o;
     directfund.myDepositTarget := directfund.myDepositTarget o;
     directfund.fullyFundedThreshold := directfund.fullyFundedThreshold o |}.

Definition directfund_loadChannelData (o : directfund.Objective)
           (channels : types.Destination → option channel.Channel)
  : option directfund.Objective :=
  c ← channels (channel.Id (directfund.C o));
  Some (directfund.withC o c).

(** Modelled from the spec: [Reject] of the sources returns the
    rejected objective only; the engine expects the side effects too,
    one rejection notice to every other participant. *)
Definition directfund_Reject (o : directfund.Objective)
  : directfund.Objective * protocols.SideEffects :=
  (directfund.Reject o,
   {| protocols.MessagesToSend :=
        protocols.CreateRejectionNoticeMessage (directfund.Id o)
          (protocols.others O (channel.MyIndex (directfund.C o))
             (state.fp_Participants (channel.FixedPart (directfund.C o))));
      protocols.TransactionsToSubmit := [];
      protocols.ProposalsToProcess := [] |}).

(** The payload as the event that [Update] of the sources takes. *)
Definition directfund_Update (o : directfund.Objective) (p : protocols.ObjectivePayload)
  : result directfund.Objective :=
  match directfund.Update o
          {| protocols.ev_ObjectiveId := protocols.ObjectiveId_ p;
             protocols.ev_SignedStates := [protocols.PayloadData p];
             protocols.ev_Holdings := None |} with
  | (_, Some e) => Err e
  | (updated, None) => Ok updated
  end.

#[global] Instance directfund_Objective : Objective directfund.Objective := {
  Id := directfund.Id;
  GetStatus := directfund.Status;
  Approve := directfund.Approve;
  Reject := directfund_Reject;
  Update := directfund_Update;
  Crank := directfund.Crank;
  Related := directfund.Channels;
  OwnsChannel := directfund.OwnsChannel;
  ofDirectFund := λ o, o;
  asDirectFund := Some;
  asDirectDefund := λ _, None;
  ReceiveProposal := λ _, None;
  constructOther := λ _ _ _, Err "cannot handle unimplemented objective type";
  paymentChannel := λ _, None;
  dropChannelData := directfund_dropChannelData;
  loadChannelData := directfund_loadChannelData;
}.

End objective.

(** ** Package [client/engine/store] *)
Module store.

Definition ErrNoSuchObjective : error := "store: no such objective".

(** Modelled from the spec: the store is not among the sources, only
    its tests are.  It maps objective ids to objectives and channel
    ids to channels and to consensus channels, and keeps the index of
    the channel that each objective owns.  The store owns the
    channels: an objective is kept with its channel references as ids
    only ([objective.dropChannelData]) and gets its channels from the
    map of the channels when it is read. *)
Record Store (O : Type) : Type := mkStore {
  objectives : gmap string O;
  channels : gmap N channel.Channel;
  consensusChannels : gmap N consensus_channel.ConsensusChannel;
  channelToObjective : gmap N string;
  key : state.SecretKey;
  address : types.Address;
}.
Arguments mkStore {O}.
Arguments objectives {O}.
Arguments channels {O}.
Arguments consensusChannels {O}.
Arguments channelToObjective {O}.
Arguments key {O}.
Arguments address {O}.

Section operations.
Context {O : Type} `{!objective.Objective O}.

Definition NewMockStore (key : state.SecretKey) : Store O :=
  {| objectives := ∅; channels := ∅; consensusChannels := ∅; channelToObjective := ∅;
     key := key; address := state.addressOf key |}.

Definition GetChannelSecretKey (s : Store O) : state.SecretKey := key s.
Definition GetAddress (s : Store O) : types.Address := address s.

(** Modelled from the spec: [getObjectiveById] answers NotFound for an
    id that names no objective.  An objective one of whose channels is
    no longer stored cannot be read: the error is another one than
    NotFound (the engine tells the two apart in
    [getOrCreateObjective]). *)
Definition GetObjectiveById (s : Store O) (id : protocols.ObjectiveId) : result O :=
  match objectives s !! id with
  | Some stored =>
      match objective.loadChannelData stored (λ channelId, channels s !! channelId) with
      | Some obj => Ok obj
      | None => Err ("error retrieving channel data for objective " +:+ id)
      end
  | None => Err ErrNoSuchObjective
  end.

Definition GetObjectiveByChannelId (s : Store O) (channelId : types.Destination)
  : option O :=
  match channelToObjective s !! channelId with
  | Some id =>
      match GetObjectiveById s id with
      | Ok obj => Some obj
      | Err _ => None
      end
  | None => None
  end.

Definition SetChannel (s : Store O) (c : channel.Channel) : Store O :=
  {| objectives := objectives s;
     channels := <[channel.Id c := c]> (channels s);
     consensusChannels := consensusChannels s;
     channelToObjective := channelToObjective s;
     key := key s; address := address s |}.

Definition DestroyChannel (s : Store O) (id : types.Destination) : Store O :=
  {| objectives := objectives s;
     channels := delete id (channels s);
     consensusChannels := consensusChannels s;
     channelToObjective := channelToObjective s;
     key := key s; address := address s |}.

Definition GetChannelById (s : Store O) (id : types.Destination) : option channel.Channel :=
  channels s !! id.

Definition SetConsensusChannel (s : Store O) (c : consensus_channel.ConsensusChannel)
  : result (Store O) :=
  Ok {| objectives := objectives s;
        channels := channels s;
        consensusChannels := <[consensus_channel.Id c := c]> (consensusChannels s);
        channelToObjective := channelToObjective s;
        key := key s; address := address s |}.

Definition DestroyConsensusChannel (s : Store O) (id : types.Destination) : Store O :=
  {| objectives := objectives s;
     channels := channels s;
     consensusChannels := delete id (consensusChannels s);
     channelToObjective := channelToObjective s;
     key := key s; address := address s |}.

Definition GetConsensusChannelById (s : Store O) (id : types.Destination)
  : option consensus_channel.ConsensusChannel :=
  consensusChannels s !! id.

Definition ReleaseChannelFromOwnership (s : Store O) (channelId : types.Destination)
  : Store O :=
  {| objectives := objectives s;
     channels := channels s;
     consensusChannels := consensusChannels s;
     channelToObjective := delete channelId (channelToObjective s);
     key := key s; address := address s |}.


(** Modelled from the spec: [setObjective] is an upsert that
    re-indexes the objective by the channel it owns and refuses a
    channel that another objective owns.  The objective is kept with
    channel ids only and its channels are stored as channels (after
    [SetObjective] the store test reads the objective back with the
    data of its channels, and finds it by the id of each of them). *)
Definition SetObjective (s : Store O) (obj : O) : result (Store O) :=
  let s := foldl SetChannel s (objective.Related obj) in
  let owned := objective.OwnsChannel obj in
  match channelToObjective s !! owned with
  | Some prevOwner =>
      if negb (bool_decide (prevOwner = objective.Id obj))
      then Err ("cannot transfer ownership of channel from objective "
                  +:+ prevOwner +:+ " to " +:+ objective.Id obj)
      else
        Ok {| objectives :=
                <[objective.Id obj := objective.dropChannelData obj]> (objectives s);
              channels := channels s;
              consensusChannels := consensusChannels s;
              channelToObjective := channelToObjective s;
              key := key s; address := address s |}
  | None =>
      Ok {| objectives :=
              <[objective.Id obj := objective.dropChannelData obj]> (objectives s);
            channels := channels s;
            consensusChannels := consensusChannels s;
            channelToObjective := <[owned := objective.Id obj]> (channelToObjective s);
            key := key s; address := address s |}
  end.

End operations.

End store.

(** ** Package [client/engine] *)
Module engine.

(** The prefixes of the objective ids of the virtual protocols. *)
Definition virtualfund_ObjectivePrefix : string := "VirtualFund-".
Definition virtualdefund_ObjectivePrefix : string := "VirtualDefund-".
Definition directdefund_ObjectivePrefix : string := "DirectDefunding-".

(** The changes caused by handling a message or an event. *)
Record EngineEvent (O : Type) : Type := mkEngineEvent {
  CompletedObjectives : list O;
  FailedObjectives : list protocols.ObjectiveId;
  ReceivedVouchers : list payments.Voucher;
}.
Arguments mkEngineEvent {O}.
Arguments CompletedObjectives {O}.
Arguments FailedObjectives {O}.
Arguments ReceivedVouchers {O}.

(** The engine with its collaborators.  The message service is the
    list of messages handed to it, the chain service the list of
    transactions submitted and the error, if any, with which it
    answers a transaction; [fromLedger] queues the proposals that
    re-enter the loop.  Logging and metrics are left out. *)
Record Engine (O : Type) : Type := mkEngine {
  store_ : store.Store O;
  vm : payments.VoucherManager;
  ShouldApprove : O → bool;
  sent : list protocols.Message;
  submitted : list protocols.ChainTransaction;
  SendTransaction_error : protocols.ChainTransaction → option error;
  fromLedger : list consensus_channel.Proposal;
}.
Arguments mkEngine {O}.
Arguments store_ {O}.
Arguments vm {O}.
Arguments ShouldApprove {O}.
Arguments sent {O}.
Arguments submitted {O}.
Arguments SendTransaction_error {O}.
Arguments fromLedger {O}.

(** What a handler leaves behind: the engine, and the event and error
    it returns. *)
Abbreviation Handled O := (Engine O * EngineEvent O * option error)%type (only parsing).

(** The state of a loop over the entries of a message: still
    collecting, or returned from the handler. *)
Inductive Loop (O : Type) : Type :=
| Continue (e : Engine O) (allCompleted : EngineEvent O)
| Return (e : Engine O) (event : EngineEvent O) (err : option error).
Arguments Continue {O}.
Arguments Return {O}.

Section handlers.
Context {O : Type} `{!objective.Objective O}.

(** [EngineEvent{}] *)
Definition noEvent : EngineEvent O :=
  {| CompletedObjectives := []; FailedObjectives := []; ReceivedVouchers := [] |}.

Definition withStore (e : Engine O) (s : store.Store O) : Engine O :=
  {| store_ := s; vm := vm e; ShouldApprove := ShouldApprove e; sent := sent e;
     submitted := submitted e; SendTransaction_error := SendTransaction_error e;
     fromLedger := fromLedger e |}.

Definition withVm (e : Engine O) (m : payments.VoucherManager) : Engine O :=
  {| store_ := store_ e; vm := m; ShouldApprove := ShouldApprove e; sent := sent e;
     submitted := submitted e; SendTransaction_error := SendTransaction_error e;
     fromLedger := fromLedger e |}.

Definition Send (e : Engine O) (message : protocols.Message) : Engine O :=
  {| store_ := store_ e; vm := vm e; ShouldApprove := ShouldApprove e;
     sent := sent e ++ [message];
     submitted := submitted e; SendTransaction_error := SendTransaction_error e;
     fromLedger := fromLedger e |}.

Definition SendTransaction (e : Engine O) (tx : protocols.ChainTransaction)
  : Engine O * option error :=
  match SendTransaction_error e tx with
  | Some err => (e, Some err)
  | None =>
      ({| store_ := store_ e; vm := vm e; ShouldApprove := ShouldApprove e;
          sent := sent e;
          submitted := submitted e ++ [tx];
          SendTransaction_error := SendTransaction_error e;
          fromLedger := fromLedger e |}, None)
  end.

Definition enqueue (e : Engine O) (proposal : consensus_channel.Proposal) : Engine O :=
  {| store_ := store_ e; vm := vm e; ShouldApprove := ShouldApprove e; sent := sent e;
     submitted := submitted e; SendTransaction_error := SendTransaction_error e;
     fromLedger := fromLedger e ++ [proposal] |}.

Definition completed (ev : EngineEvent O) (os : list O) : EngineEvent O :=
  {| CompletedObjectives := CompletedObjectives ev ++ os;
     FailedObjectives := FailedObjectives ev;
     ReceivedVouchers := ReceivedVouchers ev |}.

Definition received (ev : EngineEvent O) (v : payments.Voucher) : EngineEvent O :=
  {| CompletedObjectives := CompletedObjectives ev;
     FailedObjectives := FailedObjectives ev;
     ReceivedVouchers := ReceivedVouchers ev ++ [v] |}.

Fixpoint submitAll (e : Engine O) (txs : list protocols.ChainTransaction)
  : Engine O * option error :=
  match txs with
  | [] => (e, None)
  | tx :: rest =>
      match SendTransaction e tx with
      | (e, Some err) => (e, Some err)
      | (e, None) => submitAll e rest
      end
  end.

(** Executes the side effects declared by cranking an objective:
    messages, then transactions, then proposals. *)
Definition executeSideEffects (e : Engine O) (sideEffects : protocols.SideEffects)
  : Engine O * option error :=
  let e := foldl Send e (protocols.MessagesToSend sideEffects) in
  match submitAll e (protocols.TransactionsToSubmit sideEffects) with
  | (e, Some err) => (e, Some err)
  | (e, None) => (foldl enqueue e (protocols.ProposalsToProcess sideEffects), None)
  end.

(** Creates and stores a consensus channel derived from the
    objective if it is a direct-fund objective, and destroys the
    channel, since the consensus channel takes over governance. *)
Definition spawnConsensusChannelIfDirectFundObjective (e : Engine O) (crankedObjective : O)
  : Engine O * option error :=
  match objective.asDirectFund crankedObjective with
  | Some dfo =>
      match directfund.CreateConsensusChannel dfo with
      | Err err =>
          (e, Some (wrap ("could not create consensus channel for objective "
                            +:+ objective.Id crankedObjective +:+ ": ") err))
      | Ok c =>
          match store.SetConsensusChannel (store_ e) c with
          | Err err =>
              (e, Some (wrap ("could not store consensus channel for objective "
                                +:+ objective.Id crankedObjective +:+ ": ") err))
          | Ok s =>
              (withStore e (store.DestroyChannel s (consensus_channel.Id c)), None)
          end
      end
  | None => (e, None)
  end.

(** Cranks the objective with the key of the store, commits the
    cranked objective and executes the side effects. *)
Definition attemptProgress (e : Engine O) (obj : O) : may_panic (Handled O) :=
  let secretKey := store.GetChannelSecretKey (store_ e) in
  match objective.Crank obj secretKey with
  | Panicked msg => Panicked msg
  | Done (crankedObjective, sideEffects, waitingFor, err) =>
      match err with
      | Some err => Done (e, noEvent, Some err)
      | None =>
          match store.SetObjective (store_ e) crankedObjective with
          | Err err => Done (e, noEvent, Some err)
          | Ok s =>
              let e := withStore e s in
              if bool_decide (waitingFor = "WaitingForNothing") then
                let outgoing := completed noEvent [crankedObjective] in
                let e :=
                  withStore e (store.ReleaseChannelFromOwnership (store_ e)
                                 (objective.OwnsChannel crankedObjective)) in
                match spawnConsensusChannelIfDirectFundObjective e crankedObjective with
                | (e, Some err) => Done (e, outgoing, Some err)
                | (e, None) =>
                    let '(e, err) := executeSideEffects e sideEffects in
                    Done (e, outgoing, err)
                end
              else
                let '(e, err) := executeSideEffects e sideEffects in
                Done (e, noEvent, err)
          end
      end
  end.

Definition registerPaymentChannel (e : Engine O) (vfo : O) : Engine O * option error :=
  match objective.paymentChannel vfo with
  | None => (e, Some "not a virtual-fund objective")
  | Some (channelId, payer, payee, startingBalance) =>
      match payments.Register (vm e) channelId payer payee startingBalance with
      | Err err => (e, Some err)
      | Ok m => (withVm e m, None)
      end
  end.

(** Wraps an error of a constructor with the id of the objective. *)
Definition fromMsgErr (id : protocols.ObjectiveId) (err : error) : error :=
  "could not create objective from message.\n\ttarget objective: " +:+ id
    +:+ "\n\terr: " +:+ err.

(** Constructs an objective of the protocol that the id names. *)
Definition constructObjectiveFromMessage (e : Engine O) (id : protocols.ObjectiveId)
           (p : protocols.ObjectivePayload) : Engine O * result O :=
  if directfund.IsDirectFundObjective id then
    match directfund.ConstructFromPayload false p (store.GetAddress (store_ e)) with
    | Err err => (e, Err err)
    | Ok dfo => (e, Ok (objective.ofDirectFund dfo))
    end
  else if String.prefix virtualfund_ObjectivePrefix id then
    match objective.constructOther id p (store.GetAddress (store_ e)) with
    | Err err => (e, Err (fromMsgErr id err))
    | Ok vfo =>
        match registerPaymentChannel e vfo with
        | (e, Some err) =>
            (e, Err ("could not register channel with payment/receipt manager.\n\ttarget channel: "
                       +:+ id +:+ "\n\terr: " +:+ err))
        | (e, None) => (e, Ok vfo)
        end
    end
  else if String.prefix virtualdefund_ObjectivePrefix id then
    match objective.constructOther id p (store.GetAddress (store_ e)) with
    | Err err => (e, Err (fromMsgErr id err))
    | Ok vdfo => (e, Ok vdfo)
    end
  else if String.prefix directdefund_ObjectivePrefix id then
    match objective.constructOther id p (store.GetAddress (store_ e)) with
    | Err err => (e, Err (fromMsgErr id err))
    | Ok ddfo => (e, Ok ddfo)
    end
  else (e, Err "cannot handle unimplemented objective type").

(** Retrieves the objective from the store or, if there is none,
    creates it from the payload and stores it. *)
Definition getOrCreateObjective (e : Engine O) (p : protocols.ObjectivePayload)
  : Engine O * result O :=
  let id := protocols.ObjectiveId_ p in
  match store.GetObjectiveById (store_ e) id with
  | Ok obj => (e, Ok obj)
  | Err err =>
      if bool_decide (err = store.ErrNoSuchObjective) then
        match constructObjectiveFromMessage e id p with
        | (e, Err err) =>
            (e, Err (wrap "error constructing objective from message: " err))
        | (e, Ok newObj) =>
            match store.SetObjective (store_ e) newObj with
            | Err err => (e, Err (wrap "error setting objective in store: " err))
            | Ok s => (withStore e s, Ok newObj)
            end
        end
      else
        (e, Err ("unexpected error getting/creating objective " +:+ id +:+ ": " +:+ err))
  end.

(** The objective id for a proposal. *)
Definition getProposalObjectiveId (p : consensus_channel.Proposal)
  : protocols.ObjectiveId :=
  match consensus_channel.body p with
  | consensus_channel.ToAdd a =>
      virtualfund_ObjectivePrefix
        +:+ types.Destination_String
              (consensus_channel.Target (consensus_channel.Guarantee_ a))
  | consensus_channel.ToRemove r =>
      virtualdefund_ObjectivePrefix
        +:+ types.Destination_String (consensus_channel.Target_ r)
  end.

(** One pass of the loop over [message.ObjectivePayloads]. *)
Definition handlePayload (e : Engine O) (allCompleted : EngineEvent O)
           (payload : protocols.ObjectivePayload) : may_panic (Loop O) :=
  match getOrCreateObjective e payload with
  | (e, Err err) => Done (Return e noEvent (Some err))
  | (e, Ok obj) =>
      let approval : Engine O * O + Loop O :=
        if bool_decide (objective.GetStatus obj = protocols.Unapproved) then
          if ShouldApprove e obj then
            let obj := objective.Approve obj in
            match objective.asDirectDefund obj with
            | Some channelId =>
                inl (withStore e (store.DestroyConsensusChannel (store_ e) channelId), obj)
            | None => inl (e, obj)
            end
          else
            let '(obj, sideEffects) := objective.Reject obj in
            match store.SetObjective (store_ e) obj with
            | Err err => inr (Return e noEvent (Some err))
            | Ok s =>
                let e := withStore e s in
                let allCompleted := completed allCompleted [obj] in
                let '(e, err) := executeSideEffects e sideEffects in
                inr (Return e allCompleted err)
            end
        else inl (e, obj) in
      match approval with
      | inr returned => Done returned
      | inl (e, obj) =>
          if bool_decide (objective.GetStatus obj = protocols.Completed)
          then Done (Continue e allCompleted)
          else if bool_decide (objective.GetStatus obj = protocols.Rejected)
          then Done (Continue e allCompleted)
          else
            match objective.Update obj payload with
            | Err err => Done (Return e noEvent (Some err))
            | Ok updatedObjective =>
                match attemptProgress e updatedObjective with
                | Panicked msg => Panicked msg
                | Done (e, _, Some err) => Done (Return e noEvent (Some err))
                | Done (e, progressEvent, None) =>
                    Done (Continue e
                            (completed allCompleted (CompletedObjectives progressEvent)))
                end
            end
      end
  end.

(** One pass of the loop over [message.LedgerProposals]. *)
Definition handleLedgerProposal (e : Engine O) (allCompleted : EngineEvent O)
           (entry : consensus_channel.SignedProposal) : may_panic (Loop O) :=
  let id := getProposalObjectiveId (consensus_channel.sp_Proposal entry) in
  match store.GetObjectiveById (store_ e) id with
  | Err err => Done (Return e noEvent (Some err))
  | Ok obj =>
      if bool_decide (objective.GetStatus obj = protocols.Completed)
      then Done (Continue e allCompleted)
      else
        match objective.ReceiveProposal obj with
        | None =>
            Done (Return e noEvent
                    (Some ("received a proposal for a non-virtual objective "
                             +:+ objective.Id obj)))
        | Some receiveProposal =>
            match receiveProposal entry with
            | Err err => Done (Return e noEvent (Some err))
            | Ok updatedObjective =>
                match attemptProgress e updatedObjective with
                | Panicked msg => Panicked msg
                | Done (e, _, Some err) => Done (Return e noEvent (Some err))
                | Done (e, progressEvent, None) =>
                    Done (Continue e
                            (completed allCompleted (CompletedObjectives progressEvent)))
                end
            end
        end
  end.

(** One pass of the loop over [message.RejectedObjectives]. *)
Definition handleRejectedObjective (e : Engine O) (allCompleted : EngineEvent O)
           (entry : protocols.ObjectiveId) : may_panic (Loop O) :=
  match store.GetObjectiveById (store_ e) entry with
  | Err err => Done (Return e noEvent (Some err))
  | Ok obj =>
      if bool_decide (objective.GetStatus obj = protocols.Rejected)
      then Done (Continue e allCompleted)
      else
        (* the side effects of the rejection are ignored: the
           counterparty has notified the interested parties *)
        let '(obj, _) := objective.Reject obj in
        match store.SetObjective (store_ e) obj with
        | Err err => Done (Return e noEvent (Some err))
        | Ok s => Done (Continue (withStore e s) (completed allCompleted [obj]))
        end
  end.

(** One pass of the loop over [message.Payments]. *)
Definition handlePayment (e : Engine O) (allCompleted : EngineEvent O)
           (voucher : payments.Voucher) : may_panic (Loop O) :=
  let '(m, res) := payments.Receive (vm e) voucher in
  let e := withVm e m in
  let allCompleted := received allCompleted voucher in
  match res with
  | Err err => Done (Return e noEvent (Some (wrap "error accepting payment voucher: " err)))
  | Ok _ => Done (Continue e allCompleted)
  end.

(** [for _, entry := range entries { ... }] with [return] inside. *)
Fixpoint range {A : Type} (body : Engine O → EngineEvent O → A → may_panic (Loop O))
         (entries : list A) (e : Engine O) (allCompleted : EngineEvent O)
  : may_panic (Loop O) :=
  match entries with
  | [] => Done (Continue e allCompleted)
  | entry :: rest =>
      match body e allCompleted entry with
      | Panicked msg => Panicked msg
      | Done (Return e event err) => Done (Return e event err)
      | Done (Continue e allCompleted) => range body rest e allCompleted
      end
  end.

(** The loops of a handler in sequence. *)
Definition andThen (first : may_panic (Loop O))
           (next : Engine O → EngineEvent O → may_panic (Loop O)) : may_panic (Loop O) :=
  match first with
  | Panicked msg => Panicked msg
  | Done (Return e event err) => Done (Return e event err)
  | Done (Continue e allCompleted) => next e allCompleted
  end.

(** Handles a message from a peer. *)
Definition handleMessage (e : Engine O) (message : protocols.Message)
  : may_panic (Handled O) :=
  let allCompleted := noEvent in
  match
    andThen (range handlePayload (protocols.ObjectivePayloads message) e allCompleted)
      (λ e allCompleted,
         andThen (range handleLedgerProposal (protocols.LedgerProposals message)
                        e allCompleted)
           (λ e allCompleted,
              andThen (range handleRejectedObjective
                             (protocols.RejectedObjectives message) e allCompleted)
                (λ e allCompleted,
                   range handlePayment (protocols.Payments message) e allCompleted)))
  with
  | Panicked msg => Panicked msg
  | Done (Return e event err) => Done (e, event, err)
  | Done (Continue e allCompleted) => Done (e, allCompleted, None)
  end.

(** Handles a proposal returned to the engine from a ledger. *)
Definition handleProposal (e : Engine O) (proposal : consensus_channel.Proposal)
  : may_panic (Handled O) :=
  let id := getProposalObjectiveId proposal in
  match store.GetObjectiveById (store_ e) id with
  | Err err => Done (e, noEvent, Some err)
  | Ok obj => attemptProgress e obj
  end.

End handlers.

Section chain_events.
Context {O : Type} `{!objective.Objective O}.

(** The chain service is not among the sources: an event names its
    channel, and an objective that handles chain events (the type
    assertion to [chainservice.ChainEventHandler]) offers
    [UpdateWithChainEvent]. *)
Context {Event : Type} (ChannelID : Event → types.Destination)
        (UpdateWithChainEvent : O → option (Event → result O)).

(** [ErrUnhandledChainEvent.Error()]; the Go values of the event and of
    the objective are not printed. *)
Definition ErrUnhandledChainEvent (reason : string) : error :=
  "chain event %#v could not be handled by objective %#v due to: " +:+ reason.

(** Handles a chain event from the blockchain. *)
Definition handleChainEvent (e : Engine O) (chainEvent : Event) : may_panic (Handled O) :=
  match store.GetObjectiveByChannelId (store_ e) (ChannelID chainEvent) with
  | None =>
      (* events of channels that we are not involved in are ignored *)
      Done (e, noEvent, None)
  | Some obj =>
      match UpdateWithChainEvent obj with
      | None =>
          Done (e, noEvent,
                Some (ErrUnhandledChainEvent "objective does not handle chain events"))
      | Some update =>
          match update chainEvent with
          | Err err => Done (e, noEvent, Some err)
          | Ok updatedEventHandler => attemptProgress e updatedEventHandler
          end
      end
  end.

End chain_events.

End engine.

(** ** Package [ledger]: the ledger cranker of the tests *)
Module ledger.

(** [channel.TwoPartyLedger] embeds a [channel.Channel]; the map holds
    pointers, so that a ledger changed by a method is changed in the
    map. *)
Record LedgerCranker : Type := mkLedgerCranker {
  ledgers : gmap N channel.Channel;
  nonce : Z;
}.

Definition NewLedgerCranker : LedgerCranker := {| ledgers := ∅; nonce := 0 |}.

(** Updates the ledger cranker with the given ledger channel. *)
Definition Update (l : LedgerCranker) (ledger : channel.Channel) : LedgerCranker :=
  {| ledgers := <[channel.Id ledger := ledger]> (ledgers l); nonce := nonce l |}.

(** The ledger for the given id. *)
Definition GetLedger (l : LedgerCranker) (ledgerId : types.Destination)
  : may_panic channel.Channel :=
  match ledgers l !! ledgerId with
  | Some ledger => Done ledger
  | None => Panicked ("Ledger " +:+ types.Destination_String ledgerId +:+ " not found")
  end.

(** What the Go runtime answers to arithmetic on a [*big.Int] that a
    map did not hold. *)
Definition nilDereference : string :=
  "runtime error: invalid memory address or nil pointer dereference".

Definition cannotAfford (d : types.Destination) (amountPerParticipant : Z) : error :=
  "Allocation for " +:+ types.hex_of_string (types.Destination_String d)
    +:+ " cannot afford the amount " +:+ pretty amountPerParticipant.

(** The outcome that [HandleRequest] writes: what is left to [Left] and
    to [Right], and the guarantee for the destination of the request. *)
Definition requestOutcome (request : protocols.LedgerRequest)
           (leftAmount rightAmount amount : Z) : outcome.Exit :=
  [{| outcome.Asset := 0%N;
      outcome.Allocations :=
        [{| outcome.Destination := protocols.lr_Left request;
            outcome.Amount := leftAmount;
            outcome.AllocationType := outcome.NormalAllocationType;
            outcome.Metadata := [] |};
         {| outcome.Destination := protocols.lr_Right request;
            outcome.Amount := rightAmount;
            outcome.AllocationType := outcome.NormalAllocationType;
            outcome.Metadata := [] |};
         {| outcome.Destination := protocols.lr_Destination request;
            outcome.Amount := amount;
            outcome.AllocationType := outcome.GuaranteeAllocationType;
            outcome.Metadata :=
              outcome.GuaranteeMetadata_Encode (protocols.lr_Left request)
                                               (protocols.lr_Right request) |}] |}].

(** Accepts a ledger request and updates the ledger channel based on
    the request; returns a signed state message for the other
    participants.  [big.Int.Div] is the Euclidean division, which for
    the divisor 2 is [Z.div]; the turn number is a [uint64]. *)
Definition HandleRequest (l : LedgerCranker) (request : protocols.LedgerRequest)
           (oId : protocols.ObjectiveId) (secretKey : state.SecretKey)
  : may_panic (LedgerCranker * protocols.SideEffects * option error) :=
  match GetLedger l (protocols.lr_LedgerId request) with
  | Panicked msg => Panicked msg
  | Done ledger =>
      match channel.LatestSupportedState ledger with
      | Err err =>
          Done (l, protocols.noSideEffects,
                Some (wrap "Could not find a supported state " err))
      | Ok supported =>
          let asset := 0%N in
          let nextState := state.Clone supported in
          (* Calculate the amounts *)
          match protocols.lr_Amount request !! asset with
          | None => Panicked nilDereference
          | Some amount =>
          let amountPerParticipant := (amount / 2)%Z in
          match outcome.TotalAllocatedFor (state.Outcome nextState)
                  (protocols.lr_Left request) !! asset with
          | None => Panicked nilDereference
          | Some allocatedLeft =>
          let leftAmount := (allocatedLeft - amountPerParticipant)%Z in
          match outcome.TotalAllocatedFor (state.Outcome nextState)
                  (protocols.lr_Right request) !! asset with
          | None => Panicked nilDereference
          | Some allocatedRight =>
          let rightAmount := (allocatedRight - amountPerParticipant)%Z in
          if (leftAmount <? 0)%Z
          then Done (l, protocols.noSideEffects,
                     Some (cannotAfford (protocols.lr_Left request) amountPerParticipant))
          else if (rightAmount <? 0)%Z
          then Done (l, protocols.noSideEffects,
                     Some (cannotAfford (protocols.lr_Right request) amountPerParticipant))
          else
            let nextState :=
              state.withOutcome nextState
                (requestOutcome request leftAmount rightAmount amount) in
            let nextState :=
              state.withTurnNum nextState ((state.TurnNum nextState + 1) mod 2 ^ 64)%N in
            match state.SignAndAdd (state.NewSignedState nextState) secretKey with
            | Err err =>
                Done (l, protocols.noSideEffects, Some (wrap "Could not sign state: " err))
            | Ok ss =>
                let '(ledger', ok) := channel.AddSignedState ledger ss in
                let l :=
                  {| ledgers := <[protocols.lr_LedgerId request := ledger']> (ledgers l);
                     nonce := nonce l |} in
                if negb ok
                then Done (l, protocols.noSideEffects,
                           Some "Could not add signed state to channel")
                else
                  let messages :=
                    protocols.CreateSignedStateMessages oId ss (channel.MyIndex ledger) in
                  Done (l,
                        {| protocols.MessagesToSend := messages;
                           protocols.TransactionsToSubmit := [];
                           protocols.ProposalsToProcess := [] |},
                        None)
            end
          end end end
      end
  end.

(** Signs the prefund and then the postfund state with every key; a key
    that signs for no participant is passed over. *)
Definition SignPreAndPostFundingStates (ledger : channel.Channel)
           (secretKeys : list state.SecretKey) : channel.Channel :=
  let sign signAndAdd (c : channel.Channel) (sk : state.SecretKey) :=
    match signAndAdd c sk with
    | Ok (c', _) => c'
    | Err _ => c
    end in
  let ledger := foldl (sign channel.SignAndAddPrefund) ledger secretKeys in
  foldl (sign channel.SignAndAddPostfund) ledger secretKeys.

End ledger.

(** * Vocabulary of the properties and fixtures *)

(** ** The funding predicates *)

(** The holdings cover the threshold on every asset it lists. *)
Definition reaches (holdings threshold : gmap N Z) : Prop :=
  ∀ asset t, threshold !! asset = Some t →
             ∃ h, holdings !! asset = Some h ∧ (t ≤ h)%Z.

(** The holdings are short of the target on some asset. *)
Definition belowSomewhere (holdings target : gmap N Z) : Prop :=
  ∃ asset t h, target !! asset = Some t ∧ holdings !! asset = Some h ∧ (h < t)%Z.

(** Every asset of [f] has recorded holdings. *)
Definition covers (holdings f : gmap N Z) : Prop :=
  ∀ asset, is_Some (f !! asset) → is_Some (holdings !! asset).

#[global] Instance covers_dec holdings f : Decision (covers holdings f).
Proof.
  refine (cast_if (decide (map_Forall (λ asset _, is_Some (holdings !! asset)) f)));
    unfold covers.
  - intros asset [t Ht]. by apply (m asset t).
  - intros H. apply n. intros asset t Ht. apply H. by exists t.
Defined.

(** What [amountToDeposit] builds: target minus holdings on every asset
    of the target. *)
Definition depositFor (holdings target : gmap N Z) : gmap N Z :=
  map_imap (λ asset t, (λ h, t - h)%Z <$> holdings !! asset) target.

(** ** Signing a stored state *)

(** [c'] differs from [c] at most in the entry for turn [t] (and the
    latest supported turn). *)
Definition sameButTurn (t : N) (c c' : channel.Channel) : Prop :=
  channel.Id c' = channel.Id c
  ∧ channel.MyIndex c' = channel.MyIndex c
  ∧ channel.OnChainFunding c' = channel.OnChainFunding c
  ∧ channel.FixedPart c' = channel.FixedPart c
  ∧ ∀ t', t' ≠ t → channel.SignedStateForTurnNum c' !! t'
                   = channel.SignedStateForTurnNum c !! t'.

(** The key [sk] belongs to the participant the channel is held for. *)
Definition myKey (c : channel.Channel) (sk : N) : Prop :=
  state.indexOf (state.addressOf sk) (state.fp_Participants (channel.FixedPart c))
  = Some (channel.MyIndex c).

#[global] Instance myKey_dec c sk : Decision (myKey c sk).
Proof. unfold myKey. apply _. Defined.

(** The signing step of [Crank] for the state stored at turn [t]. *)
Definition signAt (missing : error) (t : N) (c : channel.Channel) (sk : N)
  : result (channel.Channel * state.SignedState) :=
  match channel.SignedStateForTurnNum c !! t with
  | None => Err missing
  | Some stored => channel.SignAndAddState c (state.ss_state stored) sk
  end.

(** ** The phases of [Crank] *)

(** [Crank] from the postfund signature on. *)
Definition postfunding (updated : directfund.Objective) (sideEffects : protocols.SideEffects)
           (secretKey : N) : may_panic directfund.CrankResult :=
  match directfund.signUnlessSigned channel.PostFundSignedByMe channel.SignAndAddPostfund
          updated sideEffects secretKey with
  | Err e =>
      Done (updated, protocols.noSideEffects, directfund.WaitingForCompletePostFund,
            Some (wrap "could not sign postfund " e))
  | Ok (updated, sideEffects) =>
      if negb (channel.PostFundComplete (directfund.C updated))
      then Done (updated, sideEffects, directfund.WaitingForCompletePostFund, None)
      else Done (updated, sideEffects, directfund.WaitingForNothing, None)
  end.

(** The deposit that [Crank] submits in the funding phase, if any. *)
Definition depositTransactions (fundingComplete safeToDeposit : bool)
           (channelId : N) (amountToDeposit : gmap N Z) : list protocols.ChainTransaction :=
  if negb fundingComplete && safeToDeposit && types.Funds_IsNonZero amountToDeposit
  then [{| protocols.ChannelId := channelId; protocols.Deposit := amountToDeposit |}]
  else [].

(** [Crank] from the check of the prefund signatures on. *)
Definition funding (updated : directfund.Objective) (sideEffects : protocols.SideEffects)
           (secretKey : N) : may_panic directfund.CrankResult :=
  if negb (channel.PreFundComplete (directfund.C updated))
  then Done (updated, sideEffects, directfund.WaitingForCompletePrefund, None)
  else
    match directfund.amountToDeposit updated with
    | Panicked msg => Panicked msg
    | Done amountToDeposit =>
    match directfund.safeToDeposit updated with
    | Panicked msg => Panicked msg
    | Done safeToDeposit =>
        let fundingComplete := directfund.fundingComplete updated in
        if negb fundingComplete && negb safeToDeposit
        then Done (updated, sideEffects, directfund.WaitingForMyTurnToFund, None)
        else
          let sideEffects :=
            {| protocols.MessagesToSend := protocols.MessagesToSend sideEffects;
               protocols.TransactionsToSubmit :=
                 protocols.TransactionsToSubmit sideEffects
                 ++ depositTransactions fundingComplete safeToDeposit
                      (channel.Id (directfund.C updated)) amountToDeposit;
               protocols.ProposalsToProcess := protocols.ProposalsToProcess sideEffects |} in
          if negb fundingComplete
          then Done (updated, sideEffects, directfund.WaitingForCompleteFunding, None)
          else postfunding updated sideEffects secretKey
    end
    end.

(** ** Fixtures: the two-party direct funding of the spec's scenario 1 *)
Module fixtures.

Definition alice : N := 0xAAA6628Ec44A8a742987EF3A114dDFE2D4F7aDCE.
Definition bob : N := 0xBBB676f9cFF8D242e9eaC39D063848807d3D1D94.

Definition allocation (dest : N) (amount : Z) : outcome.Allocation :=
  {| outcome.Destination := dest; outcome.Amount := amount;
     outcome.AllocationType := 0; outcome.Metadata := [] |}.

(** Alice and Bob allocate 5 each of the native asset. *)
Definition prefund : state.State :=
  {| state.ChainId := 9001;
     state.Participants := [alice; bob];
     state.ChannelNonce := 1;
     state.AppDefinition := 0;
     state.ChallengeDuration := 60;
     state.AppData := [];
     state.Outcome :=
       [{| outcome.Asset := 0;
           outcome.Allocations := [allocation alice 5; allocation bob 5] |}];
     state.TurnNum := 0;
     state.IsFinal := false |}.

Definition postfund : state.State := state.withTurnNum prefund 1.

Definition signedByBoth (s : state.State) : state.SignedState :=
  {| state.ss_state := s;
     state.ss_sigs := {[O := state.Sign s alice; 1%nat := state.Sign s bob]} |}.

(** Alice's channel once both have signed the prefund state. *)
Definition fundingChannel (holdings : gmap N Z) : channel.Channel :=
  {| channel.Id := state.ChannelId prefund;
     channel.MyIndex := 0;
     channel.OnChainFunding := holdings;
     channel.FixedPart := state.getFixedPart prefund;
     channel.SignedStateForTurnNum :=
       {[0%N := signedByBoth prefund; 1%N := state.NewSignedState postfund]};
     channel.latestSupportedStateTurnNum := Some 0%N |}.

(** Alice's objective in the funding phase, nothing deposited yet:
    safety threshold 0, target 5, fully funded at 10. *)
Definition fundingObjective : directfund.Objective :=
  {| directfund.Status := protocols.Approved;
     directfund.C := fundingChannel {[0%N := 0%Z]};
     directfund.myDepositSafetyThreshold := {[0%N := 0%Z]};
     directfund.myDepositTarget := {[0%N := 5%Z]};
     directfund.fullyFundedThreshold := {[0%N := 10%Z]} |}.

(** The same funding over two assets, 0 and 1, where the holdings of
    asset 1 already exceed Alice's target. *)
Definition twoAssetObjective : directfund.Objective :=
  {| directfund.Status := protocols.Approved;
     directfund.C := fundingChannel {[0%N := 3%Z; 1%N := 7%Z]};
     directfund.myDepositSafetyThreshold := {[0%N := 0%Z; 1%N := 0%Z]};
     directfund.myDepositTarget := {[0%N := 5%Z; 1%N := 5%Z]};
     directfund.fullyFundedThreshold := {[0%N := 10%Z; 1%N := 10%Z]} |}.

(** What the crank of [fundingObjective] declares: a deposit of 5. *)
Definition depositOfFive : protocols.SideEffects :=
  {| protocols.MessagesToSend := [];
     protocols.TransactionsToSubmit :=
       [{| protocols.ChannelId := state.ChannelId prefund;
           protocols.Deposit := {[0%N := 5%Z]} |}];
     protocols.ProposalsToProcess := [] |}.

Definition unapprovedObjective : directfund.Objective :=
  directfund.withStatus fundingObjective protocols.Unapproved.

(** Alice's channel as [channel.New] makes it: nothing signed, holdings
    of 0. *)
Definition freshChannel : channel.Channel :=
  {| channel.Id := state.ChannelId prefund;
     channel.MyIndex := 0;
     channel.OnChainFunding := {[0%N := 0%Z]};
     channel.FixedPart := state.getFixedPart prefund;
     channel.SignedStateForTurnNum :=
       {[0%N := state.NewSignedState prefund;
         1%N := state.NewSignedState postfund]};
     channel.latestSupportedStateTurnNum := None |}.

Definition freshObjective : directfund.Objective :=
  directfund.withC fundingObjective freshChannel.

(** The prefund state with Bob's signature, as Bob sends it to Alice. *)
Definition bobsPrefund : protocols.Message :=
  {| protocols.To := alice;
     protocols.ObjectivePayloads :=
       [{| protocols.PayloadData :=
             {| state.ss_state := prefund;
                state.ss_sigs := {[1%nat := state.Sign prefund bob]} |};
           protocols.ObjectiveId_ := directfund.Id freshObjective;
           protocols.Type_ := "" |}];
     protocols.LedgerProposals := [];
     protocols.Payments := [];
     protocols.RejectedObjectives := [] |}.

End fixtures.

(** ** C1: the claim *)

(** The claim as stated: the crank that follows a crank has no side
    effects. *)
Definition second_crank_is_silent (o : directfund.Objective) (sk : N) : Prop :=
  directfund.Status o = protocols.Approved →
  ∀ o1 se1 w1 e1,
    directfund.Crank o sk = Done (o1, se1, w1, e1) →
    ∃ w2 e2, directfund.Crank o1 sk = Done (o1, protocols.noSideEffects, w2, e2).

(** ** C2: the claim *)

(** The funding phase: approved, prefund signed by everyone, funding not
    yet complete. *)
Definition inFundingPhase (o : directfund.Objective) : Prop :=
  directfund.Status o = protocols.Approved
  ∧ channel.PreFundSignedByMe (directfund.C o) = true
  ∧ channel.PreFundComplete (directfund.C o) = true
  ∧ directfund.fundingComplete o = false.

(** The claim as stated: a deposit is submitted exactly when the
    holdings reach the safety threshold and are below the target, it is
    target minus holdings on each asset, and no amount is negative. *)
Definition deposit_is_shortfall (o : directfund.Objective) (sk : N) : Prop :=
  inFundingPhase o →
  ∀ o' se w e,
    directfund.Crank o sk = Done (o', se, w, e) →
    (protocols.TransactionsToSubmit se ≠ []
     ↔ reaches (channel.OnChainFunding (directfund.C o)) (directfund.myDepositSafetyThreshold o)
       ∧ belowSomewhere (channel.OnChainFunding (directfund.C o)) (directfund.myDepositTarget o))
    ∧ ∀ tx asset amount,
        tx ∈ protocols.TransactionsToSubmit se →
        protocols.Deposit tx !! asset = Some amount →
        (∃ t h, directfund.myDepositTarget o !! asset = Some t
                ∧ channel.OnChainFunding (directfund.C o) !! asset = Some h
                ∧ amount = t - h)%Z
        ∧ (0 ≤ amount)%Z.

(** ** C9: what can be serialized *)

(** The assets of [f] are addresses. *)
Definition addressed (f : gmap N Z) : Prop :=
  map_Forall (λ asset _, types.isAddress asset) f.

(** The objectives whose channel id and assets have the size of their
    Go types. *)
Definition serializable (o : directfund.Objective) : Prop :=
  types.isDestination (channel.Id (directfund.C o))
  ∧ addressed (directfund.myDepositSafetyThreshold o)
  ∧ addressed (directfund.myDepositTarget o)
  ∧ addressed (directfund.fullyFundedThreshold o).

#[global] Instance serializable_dec o : Decision (serializable o).
Proof. unfold serializable, addressed, types.isDestination, types.isAddress. apply _. Defined.

(** ** C4: a ledger *)

Module ledger_fixtures.

Definition target : N := 0x0100000000000000000000000000000000000000000000000000000000000000.

(** The ledger of the store test: Alice 6, Bob 4, one guarantee of 1. *)
Definition existing : consensus_channel.Guarantee :=
  consensus_channel.NewGuarantee 1 target fixtures.alice fixtures.bob.

Definition ledger : consensus_channel.LedgerOutcome :=
  {| consensus_channel.assetAddress := 0;
     consensus_channel.left := consensus_channel.mkBalance fixtures.alice 6;
     consensus_channel.right := consensus_channel.mkBalance fixtures.bob 4;
     consensus_channel.guarantees := {[target := existing]} |}.

Definition removal : consensus_channel.Proposal :=
  consensus_channel.NewRemoveProposal 3 target 1.

Definition afterRemoval : consensus_channel.LedgerOutcome :=
  {| consensus_channel.assetAddress := 0;
     consensus_channel.left := consensus_channel.mkBalance fixtures.alice 7;
     consensus_channel.right := consensus_channel.mkBalance fixtures.bob 4;
     consensus_channel.guarantees := ∅ |}.

End ledger_fixtures.

(** ** C3 and C5: the vouchers of [TestPaymentManager] *)

Module voucher_fixtures.

Definition channelId : N := 0x0100000000000000000000000000000000000000000000000000000000000000.
Definition wrongChannelId : N := 0x0200000000000000000000000000000000000000000000000000000000000000.
Definition anotherChannelId : N := 0x0300000000000000000000000000000000000000000000000000000000000000.

Definition deposit : Z := 1000.
Definition payment : Z := 20.
Definition doublePayment : Z := 40.
Definition triplePayment : Z := 60.
Definition overPayment : Z := 2000.

Definition testVoucher (cId : N) (amount : Z) (actor : N) : payments.Voucher :=
  payments.Sign {| payments.ChannelId := cId; payments.Amount := amount;
                   payments.Signature := None |} actor.

Definition registered (me : N) : payments.VoucherManager :=
  match payments.Register (payments.NewVoucherManager me) channelId
          fixtures.alice fixtures.bob deposit with
  | Ok vm => vm
  | Err _ => payments.NewVoucherManager me
  end.

Definition firstVoucher : payments.Voucher := testVoucher channelId payment fixtures.alice.
Definition secondVoucher : payments.Voucher :=
  testVoucher channelId doublePayment fixtures.alice.

(** Bob's manager once both vouchers have been received. *)
Definition receiptMgr : payments.VoucherManager :=
  payments.receiveAll (registered fixtures.bob) [firstVoucher; secondVoucher].

End voucher_fixtures.

(** The claim as stated: on a registered channel a voucher is accepted
    only if it is signed by the payer and its amount is at least the
    stored largest. *)
Definition receive_requires_no_decrease (vm : payments.VoucherManager)
           (v : payments.Voucher) : Prop :=
  ∀ data vm' total,
    payments.channels vm !! payments.ChannelId v = Some data →
    payments.Receive vm v = (vm', Ok total) →
    payments.RecoverSigner v = Some (payments.channelPayer data)
    ∧ (payments.Amount (payments.largestVoucher data) ≤ payments.Amount v)%Z.

(** ** C6 and C7: an engine *)

Module engine_fixtures.

(** Alice's channel with prefund and postfund signed by both, funded
    with 10. *)
Definition fundedChannel : channel.Channel :=
  {| channel.Id := state.ChannelId fixtures.prefund;
     channel.MyIndex := 0;
     channel.OnChainFunding := {[0%N := 10%Z]};
     channel.FixedPart := state.getFixedPart fixtures.prefund;
     channel.SignedStateForTurnNum :=
       {[0%N := fixtures.signedByBoth fixtures.prefund;
         1%N := fixtures.signedByBoth fixtures.postfund]};
     channel.latestSupportedStateTurnNum := Some 1%N |}.

Definition completeObjective : directfund.Objective :=
  directfund.withC fixtures.fundingObjective fundedChannel.

(** Alice's engine with an empty store, a chain that accepts every
    transaction and a policy maker that approves. *)
Definition engine0 : engine.Engine directfund.Objective :=
  {| engine.store_ := store.NewMockStore fixtures.alice;
     engine.vm := payments.NewVoucherManager fixtures.alice;
     engine.ShouldApprove := λ _, true;
     engine.sent := [];
     engine.submitted := [];
     engine.SendTransaction_error := λ _, None;
     engine.fromLedger := [] |}.

(** The engine with the unapproved objective in its store. *)
Definition engine1 : engine.Engine directfund.Objective :=
  match store.SetObjective (engine.store_ engine0) fixtures.unapprovedObjective with
  | Ok s => engine.withStore engine0 s
  | Err _ => engine0
  end.


(** What a handler did: the messages sent, the transactions submitted,
    the number of objectives completed and the error. *)
Definition observe (r : may_panic (engine.Engine directfund.Objective
                                   * engine.EngineEvent directfund.Objective
                                   * option error))
  : option (list types.Address * list protocols.ChainTransaction * nat * option error) :=
  match r with
  | Done (e, ev, err) =>
      Some (protocols.To <$> engine.sent e, engine.submitted e,
            length (engine.CompletedObjectives ev), err)
  | Panicked _ => None
  end.

Definition engineOf (r : may_panic (engine.Engine directfund.Objective
                                    * engine.EngineEvent directfund.Objective
                                    * option error))
  : engine.Engine directfund.Objective :=
  match r with
  | Done (e, _, _) => e
  | Panicked _ => engine0
  end.

(** A message that rejects the objective of [engine1] and then an
    objective that the store does not hold. *)
Definition twoRejections : protocols.Message :=
  {| protocols.To := fixtures.alice;
     protocols.ObjectivePayloads := [];
     protocols.LedgerProposals := [];
     protocols.Payments := [];
     protocols.RejectedObjectives := [directfund.Id fixtures.unapprovedObjective; "404"] |}.

(** A message that rejects the objective of [engine1] twice. *)
Definition sameRejectionTwice : protocols.Message :=
  {| protocols.To := fixtures.alice;
     protocols.ObjectivePayloads := [];
     protocols.LedgerProposals := [];
     protocols.Payments := [];
     protocols.RejectedObjectives :=
       [directfund.Id fixtures.unapprovedObjective;
        directfund.Id fixtures.unapprovedObjective] |}.

(** The funded channel with a postfund state over two assets. *)
Definition twoAssetPostfund : state.State :=
  state.withOutcome fixtures.postfund
    [{| outcome.Asset := 0;
        outcome.Allocations := [fixtures.allocation fixtures.alice 5;
                                fixtures.allocation fixtures.bob 5] |};
     {| outcome.Asset := 1;
        outcome.Allocations := [fixtures.allocation fixtures.alice 5;
                                fixtures.allocation fixtures.bob 5] |}].

(** Alice's funded channel with that postfund state, signed by both. *)
Definition twoAssetChannel : channel.Channel :=
  {| channel.Id := state.ChannelId fixtures.prefund;
     channel.MyIndex := 0;
     channel.OnChainFunding := {[0%N := 10%Z]};
     channel.FixedPart := state.getFixedPart fixtures.prefund;
     channel.SignedStateForTurnNum :=
       {[0%N := fixtures.signedByBoth fixtures.prefund;
         1%N := fixtures.signedByBoth twoAssetPostfund]};
     channel.latestSupportedStateTurnNum := Some 1%N |}.

Definition twoAssetObjective : directfund.Objective :=
  directfund.withC fixtures.fundingObjective twoAssetChannel.

End engine_fixtures.

(** ** C6: the claim *)



(** ** C7: the claim and the loops of [handleMessage] *)

Section message_loops.
Context {O : Type} `{!objective.Objective O}.



End message_loops.

(** * Properties *)

(** ** Deep copies *)

Lemma Funds_Clone_id (f : gmap N Z) : types.Funds_Clone f = f.
Proof. unfold types.Funds_Clone. apply map_fmap_id. Qed.

Lemma channel_Clone_id (c : channel.Channel) : channel.Clone c = c.
Proof. destruct c. unfold channel.Clone. simpl. by rewrite Funds_Clone_id. Qed.

Lemma clone_id (o : directfund.Objective) : directfund.clone o = o.
Proof.
  destruct o. unfold directfund.clone. simpl.
  by rewrite channel_Clone_id, !Funds_Clone_id.
Qed.

Lemma withC_C (o : directfund.Objective) : directfund.withC o (directfund.C o) = o.
Proof. by destruct o. Qed.

(** ** The funding predicates *)

Lemma Gt_false a b : types.Gt a b = false ↔ (a ≤ b)%Z.
Proof. unfold types.Gt. rewrite Z.ltb_ge. done. Qed.

Lemma Gt_true a b : types.Gt a b = true ↔ (b < a)%Z.
Proof. unfold types.Gt. by rewrite Z.ltb_lt. Qed.

Lemma fundingComplete_loop_true entries holdings :
  directfund.fundingComplete_loop entries holdings = true
  ↔ Forall (λ e, ∃ h, holdings !! e.1 = Some h ∧ (e.2 ≤ h)%Z) entries.
Proof.
  induction entries as [|[asset t] rest IH]; simpl.
  - split; [constructor|done].
  - rewrite Forall_cons. simpl. destruct (holdings !! asset) as [h|] eqn:Hh.
    + destruct (types.Gt t h) eqn:Hgt.
      * apply Gt_true in Hgt. split; [done|].
        intros [(h' & ? & ?) _]. simplify_eq. lia.
      * apply Gt_false in Hgt. rewrite IH. naive_solver.
    + split; [done|]. intros [(h' & ? & ?) _]. done.
Qed.

Lemma fundingComplete_true (o : directfund.Objective) :
  directfund.fundingComplete o = true
  ↔ reaches (channel.OnChainFunding (directfund.C o)) (directfund.fullyFundedThreshold o).
Proof.
  unfold directfund.fundingComplete, reaches.
  rewrite fundingComplete_loop_true, Forall_forall. split.
  - intros H asset t Ht. apply (H (asset, t)). by apply elem_of_map_to_list.
  - intros H [asset t] Hin. apply elem_of_map_to_list in Hin. by apply H.
Qed.

(** The order in which the entries are visited does not matter. *)
Lemma fundingComplete_loop_Permutation entries entries' holdings :
  entries ≡ₚ entries' →
  directfund.fundingComplete_loop entries holdings
  = directfund.fundingComplete_loop entries' holdings.
Proof.
  intros Hp.
  destruct (directfund.fundingComplete_loop entries holdings) eqn:H1,
           (directfund.fundingComplete_loop entries' holdings) eqn:H2; try done.
  - apply fundingComplete_loop_true in H1. rewrite Hp in H1.
    apply fundingComplete_loop_true in H1. congruence.
  - apply fundingComplete_loop_true in H2. rewrite <- Hp in H2.
    apply fundingComplete_loop_true in H2. congruence.
Qed.

Lemma safeToDeposit_loop_Done entries holdings :
  Forall (λ e, is_Some (holdings !! e.1)) entries →
  ∃ b, directfund.safeToDeposit_loop entries holdings = Done b
       ∧ (b = true ↔ Forall (λ e, ∃ h, holdings !! e.1 = Some h ∧ (e.2 ≤ h)%Z) entries).
Proof.
  induction entries as [|[asset t] rest IH]; simpl; intros Hall.
  - exists true. split; [done|]. split; [constructor|done].
  - apply Forall_cons in Hall as [[h Hh] Hall]. simpl in Hh. rewrite Hh.
    destruct (types.Gt t h) eqn:Hgt.
    + apply Gt_true in Hgt. exists false. split; [done|]. split; [done|].
      rewrite Forall_cons. simpl. intros [(h' & ? & ?) _]. simplify_eq. lia.
    + apply Gt_false in Hgt. destruct (IH Hall) as (b & -> & Hb).
      exists b. split; [done|]. rewrite Hb, Forall_cons. simpl. naive_solver.
Qed.

Lemma safeToDeposit_Done (o : directfund.Objective) :
  covers (channel.OnChainFunding (directfund.C o)) (directfund.myDepositSafetyThreshold o) →
  ∃ b, directfund.safeToDeposit o = Done b
       ∧ (b = true ↔ reaches (channel.OnChainFunding (directfund.C o))
                             (directfund.myDepositSafetyThreshold o)).
Proof.
  intros Hc. unfold directfund.safeToDeposit.
  destruct (safeToDeposit_loop_Done
              (map_to_list (directfund.myDepositSafetyThreshold o))
              (channel.OnChainFunding (directfund.C o))) as (b & Hb & Hiff).
  - apply Forall_forall. intros [asset t] Hin. apply elem_of_map_to_list in Hin.
    apply Hc. by exists t.
  - exists b. split; [done|]. rewrite Hiff, Forall_forall. unfold reaches. split.
    + intros H asset t Ht. apply (H (asset, t)). by apply elem_of_map_to_list.
    + intros H [asset t] Hin. apply elem_of_map_to_list in Hin. by apply H.
Qed.

(** With holdings recorded for every asset, [safeToDeposit] neither
    panics nor depends on the order in which Go visits the entries. *)
Lemma safeToDeposit_loop_Permutation entries entries' holdings :
  Forall (λ e, is_Some (holdings !! e.1)) entries →
  entries ≡ₚ entries' →
  directfund.safeToDeposit_loop entries holdings
  = directfund.safeToDeposit_loop entries' holdings.
Proof.
  intros Hall Hp.
  destruct (safeToDeposit_loop_Done entries holdings Hall) as (b & -> & Hb).
  assert (Hall' : Forall (λ e, is_Some (holdings !! e.1)) entries') by by rewrite <- Hp.
  destruct (safeToDeposit_loop_Done entries' holdings Hall') as (b' & -> & Hb').
  f_equal. rewrite Hp in Hb. destruct b, b'; try done.
  - symmetry. apply Hb'. by apply Hb.
  - apply Hb. by apply Hb'.
Qed.

Lemma lookup_depositFor holdings target asset :
  depositFor holdings target !! asset
  = t ← target !! asset; h ← holdings !! asset; Some (t - h)%Z.
Proof.
  unfold depositFor. rewrite map_lookup_imap.
  destruct (target !! asset) as [t|]; simpl; [|done].
  by destruct (holdings !! asset).
Qed.

Lemma amountToDeposit_loop_Done entries holdings deposits :
  Forall (λ e, is_Some (holdings !! e.1)) entries →
  NoDup entries.*1 →
  ∃ d, directfund.amountToDeposit_loop entries holdings deposits = Done d
       ∧ ∀ asset,
           d !! asset =
           match list_to_map (M := gmap N Z) entries !! asset with
           | Some t => h ← holdings !! asset; Some (t - h)%Z
           | None => deposits !! asset
           end.
Proof.
  revert deposits.
  induction entries as [|[a t] rest IH]; simpl; intros deposits Hall Hnd.
  - exists deposits. split; [done|]. intros asset. by rewrite lookup_empty.
  - apply Forall_cons in Hall as [[h Hh] Hall]. simpl in Hh. rewrite Hh.
    apply NoDup_cons in Hnd as [Hnotin Hnd].
    destruct (IH (<[a := (t - h)%Z]> deposits) Hall Hnd) as (d & -> & Hd).
    exists d. split; [done|]. intros asset. rewrite Hd.
    destruct (decide (a = asset)) as [->|Hne].
    + rewrite lookup_insert_eq.
      rewrite (not_elem_of_list_to_map_1 (M := gmap N) rest asset Hnotin).
      by rewrite lookup_insert_eq, Hh.
    + rewrite !lookup_insert_ne by done. done.
Qed.

Lemma amountToDeposit_Done (o : directfund.Objective) :
  covers (channel.OnChainFunding (directfund.C o)) (directfund.myDepositTarget o) →
  directfund.amountToDeposit o
  = Done (depositFor (channel.OnChainFunding (directfund.C o)) (directfund.myDepositTarget o)).
Proof.
  intros Hc. unfold directfund.amountToDeposit.
  destruct (amountToDeposit_loop_Done
              (map_to_list (directfund.myDepositTarget o))
              (channel.OnChainFunding (directfund.C o)) ∅) as (d & -> & Hd).
  - apply Forall_forall. intros [asset t] Hin. apply elem_of_map_to_list in Hin.
    apply Hc. by exists t.
  - apply NoDup_fst_map_to_list.
  - f_equal. apply map_eq. intros asset.
    rewrite Hd, list_to_map_to_list, lookup_depositFor.
    destruct (directfund.myDepositTarget o !! asset); simpl; [done|].
    by rewrite lookup_empty.
Qed.

Lemma amountToDeposit_loop_Panicked entries holdings deposits :
  ¬ Forall (λ e, is_Some (holdings !! e.1)) entries →
  directfund.amountToDeposit_loop entries holdings deposits
  = Panicked "nil chainHolding for asset in myDepositTarget".
Proof.
  revert deposits. induction entries as [|[a t] rest IH]; intros deposits Hno; simpl.
  - destruct Hno. constructor.
  - destruct (holdings !! a) as [h|] eqn:Hh; [|done].
    apply IH. intros Hrest. apply Hno. constructor; [by eexists|done].
Qed.

(** [amountToDeposit] does not depend on the order in which Go visits
    the entries of the target. *)
Lemma amountToDeposit_loop_Permutation entries entries' holdings :
  NoDup entries.*1 →
  entries ≡ₚ entries' →
  directfund.amountToDeposit_loop entries holdings ∅
  = directfund.amountToDeposit_loop entries' holdings ∅.
Proof.
  intros Hnd Hp.
  assert (Hnd' : NoDup entries'.*1) by by rewrite <- Hp.
  destruct (decide (Forall (λ e, is_Some (holdings !! e.1)) entries)) as [Hall|Hno].
  - assert (Hall' : Forall (λ e, is_Some (holdings !! e.1)) entries') by by rewrite <- Hp.
    destruct (amountToDeposit_loop_Done entries holdings ∅ Hall Hnd) as (d & -> & Hd).
    destruct (amountToDeposit_loop_Done entries' holdings ∅ Hall' Hnd') as (d' & -> & Hd').
    f_equal. apply map_eq. intros asset.
    by rewrite Hd, Hd', (list_to_map_proper (M := gmap N) entries entries' Hnd Hp).
  - rewrite !amountToDeposit_loop_Panicked; [done| |done].
    intros Hall'. apply Hno. by rewrite Hp.
Qed.

Lemma Funds_IsNonZero_true (f : gmap N Z) :
  types.Funds_IsNonZero f = true ↔ ∃ asset v, f !! asset = Some v ∧ (0 < v)%Z.
Proof.
  unfold types.Funds_IsNonZero. rewrite existsb_exists. split.
  - intros ([asset v] & Hin & Hv). apply list_elem_of_In, elem_of_map_to_list in Hin.
    exists asset, v. split; [done|]. by apply Z.ltb_lt.
  - intros (asset & v & Hl & Hv). exists (asset, v). split.
    + by apply list_elem_of_In, elem_of_map_to_list.
    + by apply Z.ltb_lt.
Qed.

Lemma depositFor_IsNonZero holdings target :
  types.Funds_IsNonZero (depositFor holdings target) = true
  ↔ belowSomewhere holdings target.
Proof.
  rewrite Funds_IsNonZero_true. unfold belowSomewhere. split.
  - intros (asset & v & Hl & Hv). rewrite lookup_depositFor in Hl.
    destruct (target !! asset) as [t|] eqn:Ht; simpl in Hl; [|done].
    destruct (holdings !! asset) as [h|] eqn:Hh; simpl in Hl; [|done].
    simplify_eq. exists asset, t, h. repeat split; try done. lia.
  - intros (asset & t & h & Ht & Hh & Hlt). exists asset, (t - h)%Z.
    rewrite lookup_depositFor, Ht. simpl. rewrite Hh. simpl. split; [done|lia].
Qed.

(** ** Signing a stored state *)

Lemma sameButTurn_refl t c : sameButTurn t c c.
Proof. by repeat split. Qed.

Lemma SignAndAddState_eq c s sk :
  channel.SignAndAddState c s sk =
  match state.indexOf (state.addressOf sk) (state.Participants s) with
  | Some i =>
      let ss := {| state.ss_state := s; state.ss_sigs := {[i := state.Sign s sk]} |} in
      Ok ((channel.AddSignedState c ss).1, ss)
  | None => Err (wrap "could not add own signature " "Signature does not match any participant")
  end.
Proof.
  unfold channel.SignAndAddState, state.AddSignature, state.RecoverSigner, state.recover.
  simpl. rewrite decide_True by done. simpl.
  by destruct (state.indexOf _ _).
Qed.

Lemma withSignedState_sameButTurn c t x :
  sameButTurn t c (channel.withSignedState c t x).
Proof.
  repeat split. intros t' Hne. simpl. by rewrite lookup_insert_ne.
Qed.

Lemma withSignedState_wf c t x :
  channel.wf c →
  state.TurnNum (state.ss_state x) = t →
  state.getFixedPart (state.ss_state x) = channel.FixedPart c →
  channel.wf (channel.withSignedState c t x).
Proof.
  unfold channel.wf. intros Hwf Ht Hfp. simpl. by apply map_Forall_insert_2.
Qed.

Lemma AddSignedState_sameButTurn c ss :
  sameButTurn (state.TurnNum (state.ss_state ss)) c (channel.AddSignedState c ss).1.
Proof.
  unfold channel.AddSignedState.
  destruct (negb _); [apply sameButTurn_refl|].
  destruct (channel.SignedStateForTurnNum c !! _) as [stored|];
    [|apply withSignedState_sameButTurn].
  destruct (bool_decide _); [apply withSignedState_sameButTurn|apply sameButTurn_refl].
Qed.

Lemma AddSignedState_wf c ss :
  channel.wf c → channel.wf (channel.AddSignedState c ss).1.
Proof.
  intros Hwf. unfold channel.AddSignedState.
  destruct (bool_decide (state.getFixedPart (state.ss_state ss) = channel.FixedPart c))
    eqn:Hfp; simpl; [|done].
  apply bool_decide_eq_true in Hfp.
  destruct (channel.SignedStateForTurnNum c !! _) as [stored|]; simpl.
  - destruct (bool_decide _); simpl; [|done]. by apply withSignedState_wf.
  - by apply withSignedState_wf.
Qed.

(** Signing the state stored for turn [t] with my own key leaves it
    signed by me. *)
Lemma SignAndAddState_signed c t stored sk :
  channel.wf c →
  myKey c sk →
  channel.SignedStateForTurnNum c !! t = Some stored →
  ∃ c' ss,
    channel.SignAndAddState c (state.ss_state stored) sk = Ok (c', ss)
    ∧ channel.signedByMe c' t = true.
Proof.
  intros Hwf Hkey Hst. destruct (Hwf t stored Hst) as [Ht Hfp].
  rewrite SignAndAddState_eq.
  assert (Hp : state.Participants (state.ss_state stored)
               = state.fp_Participants (channel.FixedPart c)) by by rewrite <- Hfp.
  rewrite Hp, Hkey. simpl. eexists _, _. split; [done|].
  unfold channel.AddSignedState. simpl.
  rewrite bool_decide_eq_true_2 by done. simpl. rewrite Ht, Hst.
  rewrite bool_decide_eq_true_2 by done. simpl.
  unfold channel.signedByMe. simpl. rewrite lookup_insert_eq.
  unfold state.HasSignatureForParticipant. simpl.
  apply bool_decide_eq_true. apply lookup_union_is_Some. right.
  rewrite lookup_singleton_eq. by eexists.
Qed.

Lemma SignAndAddState_frame c s sk c' ss :
  channel.SignAndAddState c s sk = Ok (c', ss) →
  sameButTurn (state.TurnNum s) c c' ∧ (channel.wf c → channel.wf c').
Proof.
  rewrite SignAndAddState_eq.
  destruct (state.indexOf _ _) as [i|]; [|done]. simpl. intros [= <- <-]. split.
  - apply (AddSignedState_sameButTurn c {| state.ss_state := s |}).
  - apply AddSignedState_wf.
Qed.

Lemma SignAndAddPrefund_signAt :
  channel.SignAndAddPrefund = signAt "no prefund state" channel.PreFundTurnNum.
Proof. done. Qed.

Lemma SignAndAddPostfund_signAt :
  channel.SignAndAddPostfund = signAt "no postfund state" channel.PostFundTurnNum.
Proof. done. Qed.

Lemma signUnlessSigned_signed signedByMe signAndAdd u se sk :
  signedByMe (directfund.C u) = true →
  directfund.signUnlessSigned signedByMe signAndAdd u se sk = Ok (u, se).
Proof. intros H. unfold directfund.signUnlessSigned. by rewrite H. Qed.

(** One signing step: if it succeeds the state is signed by me, only
    the entry for turn [t] changed and only messages were added; if it
    fails it fails again, whatever the side effects so far. *)
Lemma signUnlessSigned_step missing t u se sk :
  channel.wf (directfund.C u) →
  myKey (directfund.C u) sk →
  match directfund.signUnlessSigned (λ c, channel.signedByMe c t) (signAt missing t) u se sk with
  | Ok (u', se') =>
      channel.signedByMe (directfund.C u') t = true
      ∧ sameButTurn t (directfund.C u) (directfund.C u')
      ∧ channel.wf (directfund.C u')
      ∧ u' = directfund.withC u (directfund.C u')
      ∧ protocols.TransactionsToSubmit se' = protocols.TransactionsToSubmit se
      ∧ protocols.ProposalsToProcess se' = protocols.ProposalsToProcess se
  | Err e =>
      ∀ se0, directfund.signUnlessSigned (λ c, channel.signedByMe c t)
               (signAt missing t) u se0 sk = Err e
  end.
Proof.
  intros Hwf Hkey. unfold directfund.signUnlessSigned.
  destruct (channel.signedByMe (directfund.C u) t) eqn:Hsigned; simpl.
  - split; [done|]. split; [apply sameButTurn_refl|]. split; [done|].
    split; [by rewrite withC_C|done].
  - unfold signAt.
    destruct (channel.SignedStateForTurnNum (directfund.C u) !! t) as [stored|] eqn:Hst;
      [|done].
    destruct (SignAndAddState_signed _ t stored sk Hwf Hkey Hst) as (c' & ss & Hok & Hs).
    rewrite Hok. simpl.
    destruct (SignAndAddState_frame _ _ _ _ _ Hok) as [Hframe Hwf'].
    destruct (Hwf t stored Hst) as [Ht _]. rewrite Ht in Hframe.
    split; [done|]. split; [done|]. split; [by apply Hwf'|]. done.
Qed.

(** ** The phases of [Crank] *)

Lemma SideEffects_eta (se : protocols.SideEffects) :
  {| protocols.MessagesToSend := protocols.MessagesToSend se;
     protocols.TransactionsToSubmit := protocols.TransactionsToSubmit se ++ [];
     protocols.ProposalsToProcess := protocols.ProposalsToProcess se |} = se.
Proof. destruct se. simpl. by rewrite app_nil_r. Qed.

Lemma Crank_eq (o : directfund.Objective) (sk : N) :
  directfund.Crank o sk =
  if negb (bool_decide (directfund.Status o = protocols.Approved))
  then Done (o, protocols.noSideEffects, directfund.WaitingForNothing,
             Some directfund.ErrNotApproved)
  else
    match directfund.signUnlessSigned channel.PreFundSignedByMe channel.SignAndAddPrefund
            o protocols.noSideEffects sk with
    | Err e => Done (o, protocols.noSideEffects, directfund.WaitingForCompletePrefund,
                     Some (wrap "could not sign prefund " e))
    | Ok (updated, sideEffects) => funding updated sideEffects sk
    end.
Proof.
  unfold directfund.Crank. rewrite clone_id.
  destruct (negb _); [done|].
  destruct (directfund.signUnlessSigned _ _ _ _ _) as [[u se]|e]; [|done].
  unfold funding, postfunding, depositTransactions.
  destruct (negb (channel.PreFundComplete _)); [done|].
  destruct (directfund.amountToDeposit u) as [atd|]; [|done].
  destruct (directfund.safeToDeposit u) as [std|]; [|done].
  destruct (directfund.fundingComplete u), std; simpl; try done.
  - by rewrite SideEffects_eta.
  - by rewrite SideEffects_eta.
  - destruct (types.Funds_IsNonZero atd); simpl; [done|]. by rewrite SideEffects_eta.
Qed.

Lemma prefund_step u se sk :
  channel.wf (directfund.C u) →
  myKey (directfund.C u) sk →
  match directfund.signUnlessSigned channel.PreFundSignedByMe channel.SignAndAddPrefund
          u se sk with
  | Ok (u', se') =>
      channel.PreFundSignedByMe (directfund.C u') = true
      ∧ sameButTurn channel.PreFundTurnNum (directfund.C u) (directfund.C u')
      ∧ channel.wf (directfund.C u')
      ∧ u' = directfund.withC u (directfund.C u')
      ∧ protocols.TransactionsToSubmit se' = protocols.TransactionsToSubmit se
      ∧ protocols.ProposalsToProcess se' = protocols.ProposalsToProcess se
  | Err e =>
      ∀ se0, directfund.signUnlessSigned channel.PreFundSignedByMe
               channel.SignAndAddPrefund u se0 sk = Err e
  end.
Proof. exact (signUnlessSigned_step "no prefund state" channel.PreFundTurnNum u se sk). Qed.

Lemma postfund_step u se sk :
  channel.wf (directfund.C u) →
  myKey (directfund.C u) sk →
  match directfund.signUnlessSigned channel.PostFundSignedByMe channel.SignAndAddPostfund
          u se sk with
  | Ok (u', se') =>
      channel.PostFundSignedByMe (directfund.C u') = true
      ∧ sameButTurn channel.PostFundTurnNum (directfund.C u) (directfund.C u')
      ∧ channel.wf (directfund.C u')
      ∧ u' = directfund.withC u (directfund.C u')
      ∧ protocols.TransactionsToSubmit se' = protocols.TransactionsToSubmit se
      ∧ protocols.ProposalsToProcess se' = protocols.ProposalsToProcess se
  | Err e =>
      ∀ se0, directfund.signUnlessSigned channel.PostFundSignedByMe
               channel.SignAndAddPostfund u se0 sk = Err e
  end.
Proof. exact (signUnlessSigned_step "no postfund state" channel.PostFundTurnNum u se sk). Qed.

Lemma myKey_sameButTurn t c c' sk : sameButTurn t c c' → myKey c sk → myKey c' sk.
Proof. intros (_ & Hi & _ & Hfp & _). unfold myKey. by rewrite Hi, Hfp. Qed.

(** The funding predicates read the thresholds and the holdings only. *)
Lemma funding_reads_holdings u c' :
  channel.OnChainFunding c' = channel.OnChainFunding (directfund.C u) →
  directfund.fundingComplete (directfund.withC u c') = directfund.fundingComplete u
  ∧ directfund.amountToDeposit (directfund.withC u c') = directfund.amountToDeposit u
  ∧ directfund.safeToDeposit (directfund.withC u c') = directfund.safeToDeposit u.
Proof.
  intros H. unfold directfund.fundingComplete, directfund.amountToDeposit,
    directfund.safeToDeposit. simpl. by rewrite H.
Qed.

Lemma postfunding_again u se sk u' se' w e :
  channel.wf (directfund.C u) →
  myKey (directfund.C u) sk →
  protocols.TransactionsToSubmit se = [] →
  postfunding u se sk = Done (u', se', w, e) →
  protocols.TransactionsToSubmit se' = []
  ∧ sameButTurn channel.PostFundTurnNum (directfund.C u) (directfund.C u')
  ∧ u' = directfund.withC u (directfund.C u')
  ∧ postfunding u' protocols.noSideEffects sk = Done (u', protocols.noSideEffects, w, e).
Proof.
  intros Hwf Hkey Htx. unfold postfunding.
  pose proof (postfund_step u se sk Hwf Hkey) as Hstep.
  destruct (directfund.signUnlessSigned _ _ u se sk) as [[u1 s1]|err] eqn:Hs.
  - destruct Hstep as (Hsigned & Hframe & _ & Hu1 & Htx1 & _).
    intros Hdone.
    assert (u' = u1 ∧ se' = s1) as [-> ->]
      by (destruct (negb _); by simplify_eq).
    split; [congruence|]. split; [done|]. split; [done|].
    rewrite (signUnlessSigned_signed _ _ u1 _ sk Hsigned).
    destruct (negb (channel.PostFundComplete (directfund.C u1))); by simplify_eq.
  - intros [= <- <- <- <-]. split; [done|]. split; [apply sameButTurn_refl|].
    split; [by rewrite withC_C|]. by rewrite Hstep.
Qed.

Lemma funding_again u se sk u' se' w e :
  channel.wf (directfund.C u) →
  myKey (directfund.C u) sk →
  channel.PreFundSignedByMe (directfund.C u) = true →
  protocols.TransactionsToSubmit se = [] →
  funding u se sk = Done (u', se', w, e) →
  channel.PreFundSignedByMe (directfund.C u') = true
  ∧ directfund.Status u' = directfund.Status u
  ∧ ∃ se2, funding u' protocols.noSideEffects sk = Done (u', se2, w, e)
           ∧ protocols.MessagesToSend se2 = []
           ∧ protocols.TransactionsToSubmit se2 = protocols.TransactionsToSubmit se'
           ∧ protocols.ProposalsToProcess se2 = [].
Proof.
  intros Hwf Hkey Hsigned Htx. unfold funding.
  destruct (negb (channel.PreFundComplete (directfund.C u))) eqn:Hpc.
  { intros [= <- <- <- <-]. split; [done|]. split; [done|].
    exists protocols.noSideEffects. by rewrite Hpc, Htx. }
  destruct (directfund.amountToDeposit u) as [atd|] eqn:Hatd; [|done].
  destruct (directfund.safeToDeposit u) as [std|] eqn:Hstd; [|done].
  simpl.
  destruct (negb (directfund.fundingComplete u) && negb std) eqn:Hturn.
  { intros [= <- <- <- <-]. split; [done|]. split; [done|].
    exists protocols.noSideEffects. by rewrite Hpc, Hatd, Hstd, Hturn, Htx. }
  destruct (negb (directfund.fundingComplete u)) eqn:Hfc.
  { intros [= <- <- <- <-]. split; [done|]. split; [done|].
    eexists. rewrite Hpc, Hatd, Hstd. simpl. rewrite Hfc, Hturn.
    split; [done|]. simpl. by rewrite Htx. }
  intros Hpost.
  assert (Hnone : depositTransactions (directfund.fundingComplete u) std
                    (channel.Id (directfund.C u)) atd = []).
  { unfold depositTransactions. by rewrite Hfc. }
  rewrite Hnone in Hpost.
  apply postfunding_again in Hpost as (Htx' & Hframe & Hu' & Hagain);
    [|done|done|by simpl; rewrite Htx].
  destruct Hframe as (Hid & Hidx & Hhold & Hfp & Hother).
  assert (H0 : channel.SignedStateForTurnNum (directfund.C u') !! channel.PreFundTurnNum
               = channel.SignedStateForTurnNum (directfund.C u) !! channel.PreFundTurnNum)
    by by apply Hother.
  split.
  { unfold channel.PreFundSignedByMe, channel.signedByMe in *. by rewrite H0, Hidx. }
  split; [by rewrite Hu'|].
  exists protocols.noSideEffects.
  assert (Hpc' : negb (channel.PreFundComplete (directfund.C u')) = false).
  { unfold channel.PreFundComplete, channel.complete in *. by rewrite H0. }
  destruct (funding_reads_holdings u (directfund.C u') Hhold) as (Hf1 & Hf2 & Hf3).
  rewrite <- Hu' in Hf1, Hf2, Hf3.
  rewrite Hpc', Hf2, Hf3, Hatd, Hstd. simpl.
  rewrite Hf1, Hfc, Hturn, Hid, Hnone. simpl.
  change {| protocols.MessagesToSend := []; protocols.TransactionsToSubmit := [];
            protocols.ProposalsToProcess := [] |} with protocols.noSideEffects.
  by rewrite Hagain, Htx'.
Qed.

(** ** Scenario 1 of the spec *)

Example NewObjective_alice :
  directfund.NewObjective true fixtures.prefund fixtures.alice = Ok fixtures.freshObjective.
Proof. vm_compute. reflexivity. Qed.

Example NewObjective_bob :
  ∃ o, directfund.NewObjective true fixtures.prefund fixtures.bob = Ok o
       ∧ directfund.myDepositSafetyThreshold o = {[0%N := 5%Z]}
       ∧ directfund.myDepositTarget o = {[0%N := 10%Z]}.
Proof. eexists. split; [reflexivity|]. repeat split; by vm_compute. Qed.

Example Crank_fundingObjective :
  directfund.Crank fixtures.fundingObjective fixtures.alice
  = Done (fixtures.fundingObjective, fixtures.depositOfFive,
          directfund.WaitingForCompleteFunding, None).
Proof. by vm_compute. Qed.

(** ** C10 *)

(** C10.  For every direct-fund objective whose status is not Approved,
    [Crank] returns the objective unchanged, no side effects, the error
    [ErrNotApproved] and [WaitingForNothing]; on an approved objective
    [WaitingForNothing] comes without an error and with the postfund
    state signed by everyone, so it is the value that otherwise signals
    completion. *)
Theorem Crank_not_approved (o : directfund.Objective) (sk : N) :
  (directfund.Status o ≠ protocols.Approved →
   directfund.Crank o sk
   = Done (o, protocols.noSideEffects, directfund.WaitingForNothing,
           Some directfund.ErrNotApproved))
  ∧ (directfund.Status o = protocols.Approved →
     ∀ o' se e,
       directfund.Crank o sk = Done (o', se, directfund.WaitingForNothing, e) →
       e = None ∧ channel.PostFundComplete (directfund.C o') = true).
Proof.
  rewrite Crank_eq. split.
  - intros Hs. by rewrite bool_decide_eq_false_2.
  - intros Hs o' se e. rewrite bool_decide_eq_true_2 by done. simpl.
    destruct (directfund.signUnlessSigned _ _ _ _ _) as [[u s]|err]; [|done].
    unfold funding.
    destruct (negb (channel.PreFundComplete _)); [done|].
    destruct (directfund.amountToDeposit u); [|done].
    destruct (directfund.safeToDeposit u) as [std|]; [|done]. simpl.
    destruct (negb (directfund.fundingComplete u) && negb std); [done|].
    destruct (negb (directfund.fundingComplete u)); [done|].
    unfold postfunding.
    destruct (directfund.signUnlessSigned _ _ _ _ _) as [[u' s']|err]; [|done].
    destruct (negb (channel.PostFundComplete (directfund.C u'))) eqn:Hpc; [done|].
    intros [= <- <- <-]. split; [done|]. by apply negb_false_iff.
Qed.

Lemma Crank_not_approved_witness :
  directfund.Crank fixtures.unapprovedObjective fixtures.alice
  = Done (fixtures.unapprovedObjective, protocols.noSideEffects,
          directfund.WaitingForNothing, Some directfund.ErrNotApproved).
Proof.
  apply (proj1 (Crank_not_approved fixtures.unapprovedObjective fixtures.alice)).
  discriminate.
Defined.

(** ** C1 *)

(** C1, counterexample.  Alice's objective in the funding phase submits
    its deposit of 5 on the first crank and, the holdings being
    unchanged, submits it again on the second. *)
Lemma second_crank_repeats_deposit :
  ¬ second_crank_is_silent fixtures.fundingObjective fixtures.alice.
Proof.
  intros H. destruct (H eq_refl _ _ _ _ Crank_fundingObjective) as (w2 & e2 & H2).
  rewrite Crank_fundingObjective in H2.
  apply (f_equal (λ r, match r with
                       | Done (_, se, _, _) => length (protocols.TransactionsToSubmit se)
                       | Panicked _ => O
                       end)) in H2.
  vm_compute in H2. discriminate H2.
Qed.

(** C1, amended.  Cranking the objective returned by a crank, with the
    key of the participant the objective is held for, returns that
    objective again with the same [WaitingFor] and error; it sends no
    message, so no signature is produced twice, and it submits the
    transactions of the first crank: its side effects are empty unless
    the first crank submitted a deposit. *)
Theorem Crank_twice (o : directfund.Objective) (sk : N) :
  channel.wf (directfund.C o) →
  myKey (directfund.C o) sk →
  ∀ o1 se1 w1 e1,
    directfund.Crank o sk = Done (o1, se1, w1, e1) →
    ∃ se2,
      directfund.Crank o1 sk = Done (o1, se2, w1, e1)
      ∧ protocols.MessagesToSend se2 = []
      ∧ protocols.TransactionsToSubmit se2 = protocols.TransactionsToSubmit se1
      ∧ protocols.ProposalsToProcess se2 = []
      ∧ (protocols.TransactionsToSubmit se1 = [] → se2 = protocols.noSideEffects).
Proof.
  intros Hwf Hkey o1 se1 w1 e1 H1.
  assert (Hmain : ∃ se2,
      directfund.Crank o1 sk = Done (o1, se2, w1, e1)
      ∧ protocols.MessagesToSend se2 = []
      ∧ protocols.TransactionsToSubmit se2 = protocols.TransactionsToSubmit se1
      ∧ protocols.ProposalsToProcess se2 = []).
  { rewrite Crank_eq in H1.
    destruct (negb (bool_decide (directfund.Status o = protocols.Approved))) eqn:Hs.
    { injection H1 as <- <- <- <-. exists protocols.noSideEffects.
      rewrite Crank_eq, Hs. done. }
    pose proof (prefund_step o protocols.noSideEffects sk Hwf Hkey) as Hstep.
    destruct (directfund.signUnlessSigned _ _ o _ sk) as [[u s]|err] eqn:Hsign.
    - destruct Hstep as (Hsigned & Hframe & Hwfu & Hu & Htx & _).
      apply funding_again in H1 as (Hsigned1 & Hstatus & se2 & H2 & Hm & Ht & Hp);
        [|done|by eapply myKey_sameButTurn|done|done].
      exists se2. split; [|done].
      rewrite Crank_eq.
      assert (directfund.Status o1 = directfund.Status o) as ->
        by (rewrite Hstatus, Hu; done).
      rewrite Hs. by rewrite (signUnlessSigned_signed _ _ o1 _ sk Hsigned1).
    - injection H1 as <- <- <- <-. exists protocols.noSideEffects.
      rewrite Crank_eq, Hs, Hsign. done. }
  destruct Hmain as (se2 & H2 & Hm & Ht & Hp). exists se2.
  repeat (split; [done|]). intros Hnone. destruct se2. simpl in *.
  unfold protocols.noSideEffects. congruence.
Qed.

Lemma Crank_twice_witness :
  ∃ se2,
    directfund.Crank fixtures.fundingObjective fixtures.alice
    = Done (fixtures.fundingObjective, se2, directfund.WaitingForCompleteFunding, None)
    ∧ protocols.MessagesToSend se2 = []
    ∧ protocols.TransactionsToSubmit se2
      = protocols.TransactionsToSubmit fixtures.depositOfFive
    ∧ protocols.ProposalsToProcess se2 = []
    ∧ (protocols.TransactionsToSubmit fixtures.depositOfFive = [] →
       se2 = protocols.noSideEffects).
Proof.
  apply (Crank_twice fixtures.fundingObjective fixtures.alice).
  - apply (bool_decide_unpack _). by vm_compute.
  - apply (bool_decide_unpack _). by vm_compute.
  - exact Crank_fundingObjective.
Defined.

(** With the key of a peer the signature is filed under the peer's
    index, the prefund state stays unsigned by me and the next crank
    signs and sends again: the key has to be mine. *)
Example Crank_with_a_peer_key :
  ∃ o1 se1 se2,
    directfund.Crank fixtures.freshObjective fixtures.bob
    = Done (o1, se1, directfund.WaitingForCompletePrefund, None)
    ∧ directfund.Crank o1 fixtures.bob
      = Done (o1, se2, directfund.WaitingForCompletePrefund, None)
    ∧ protocols.To <$> protocols.MessagesToSend se2 = [fixtures.bob].
Proof.
  eexists _, _, _. split; [vm_compute; reflexivity|].
  split; [vm_compute; reflexivity|]. vm_compute. reflexivity.
Qed.

(** ** C2 *)

Example Crank_twoAssetObjective :
  directfund.Crank fixtures.twoAssetObjective fixtures.alice
  = Done (fixtures.twoAssetObjective,
          {| protocols.MessagesToSend := [];
             protocols.TransactionsToSubmit :=
               [{| protocols.ChannelId := state.ChannelId fixtures.prefund;
                   protocols.Deposit := {[0%N := 2%Z; 1%N := (-2)%Z]} |}];
             protocols.ProposalsToProcess := [] |},
          directfund.WaitingForCompleteFunding, None).
Proof. by vm_compute. Qed.

(** C2, counterexample.  With targets of 5 of asset 0 and of asset 1
    and holdings of 3 and 7, the deposit submitted is 2 of asset 0 and
    -2 of asset 1. *)
Lemma deposit_can_be_negative :
  ¬ deposit_is_shortfall fixtures.twoAssetObjective fixtures.alice.
Proof.
  intros H.
  destruct (H ltac:(by vm_compute) _ _ _ _ Crank_twoAssetObjective) as [_ Hamount].
  destruct (Hamount _ 1%N (-2)%Z ltac:(by apply list_elem_of_singleton) ltac:(by vm_compute))
    as [_ Hneg].
  lia.
Qed.

(** C2, amended.  In the funding phase, with holdings recorded for every
    asset of the thresholds, [Crank] submits one deposit exactly when the
    holdings reach the safety threshold on every asset and are strictly
    below the target on at least one asset.  The deposit lists target
    minus holdings for every asset of the target; the amount is
    non-negative on each asset whose holdings do not exceed the target. *)
Theorem Crank_deposit (o : directfund.Objective) (sk : N) :
  inFundingPhase o →
  covers (channel.OnChainFunding (directfund.C o)) (directfund.myDepositSafetyThreshold o) →
  covers (channel.OnChainFunding (directfund.C o)) (directfund.myDepositTarget o) →
  ∃ se w,
    directfund.Crank o sk = Done (o, se, w, None)
    ∧ (reaches (channel.OnChainFunding (directfund.C o)) (directfund.myDepositSafetyThreshold o)
       ∧ belowSomewhere (channel.OnChainFunding (directfund.C o)) (directfund.myDepositTarget o)
       → ∃ deposit,
           protocols.TransactionsToSubmit se
           = [{| protocols.ChannelId := channel.Id (directfund.C o);
                 protocols.Deposit := deposit |}]
           ∧ ∀ asset,
               deposit !! asset
               = t ← directfund.myDepositTarget o !! asset;
                 h ← channel.OnChainFunding (directfund.C o) !! asset;
                 Some (t - h)%Z)
    ∧ (¬ (reaches (channel.OnChainFunding (directfund.C o))
                  (directfund.myDepositSafetyThreshold o)
          ∧ belowSomewhere (channel.OnChainFunding (directfund.C o))
                           (directfund.myDepositTarget o))
       → protocols.TransactionsToSubmit se = [])
    ∧ ∀ tx asset amount t h,
        tx ∈ protocols.TransactionsToSubmit se →
        protocols.Deposit tx !! asset = Some amount →
        directfund.myDepositTarget o !! asset = Some t →
        channel.OnChainFunding (directfund.C o) !! asset = Some h →
        amount = (t - h)%Z ∧ ((h ≤ t)%Z → (0 ≤ amount)%Z).
Proof.
  intros (Hs & Hsigned & Hpc & Hfc) Hcs Hct.
  rewrite Crank_eq, bool_decide_eq_true_2 by done. simpl.
  rewrite (signUnlessSigned_signed _ _ o _ sk Hsigned).
  unfold funding. rewrite Hpc. simpl.
  rewrite (amountToDeposit_Done o Hct).
  destruct (safeToDeposit_Done o Hcs) as (std & -> & Hstd).
  rewrite Hfc. simpl.
  set (holdings := channel.OnChainFunding (directfund.C o)) in *.
  set (target := directfund.myDepositTarget o) in *.
  unfold depositTransactions. simpl.
  pose proof (depositFor_IsNonZero holdings target) as Hnz.
  assert (Hamounts : ∀ tx asset amount t h,
    tx ∈ [{| protocols.ChannelId := channel.Id (directfund.C o);
             protocols.Deposit := depositFor holdings target |}] →
    protocols.Deposit tx !! asset = Some amount →
    target !! asset = Some t → holdings !! asset = Some h →
    amount = (t - h)%Z ∧ ((h ≤ t)%Z → (0 ≤ amount)%Z)).
  { intros tx asset amount t h ->%list_elem_of_singleton. simpl.
    rewrite lookup_depositFor. intros Hl Ht Hh. rewrite Ht in Hl. simpl in Hl.
    rewrite Hh in Hl. simpl in Hl. simplify_eq. split; [done|lia]. }
  destruct std; simpl.
  - destruct (types.Funds_IsNonZero (depositFor holdings target)) eqn:Hz; simpl.
    + eexists _, _. split; [done|]. simpl. split; [|split].
      * intros _. eexists. split; [done|]. apply lookup_depositFor.
      * intros Hnot. exfalso. apply Hnot. split; [by apply Hstd|by apply Hnz].
      * exact Hamounts.
    + eexists _, _. split; [done|]. simpl. split; [|split].
      * intros [_ Hb]. apply Hnz in Hb. congruence.
      * done.
      * intros tx asset amount t h Hin. by apply elem_of_nil in Hin.
  - eexists _, _. split; [done|]. simpl. split; [|split].
    + intros [Hr _]. apply Hstd in Hr. done.
    + done.
    + intros tx asset amount t h Hin. by apply elem_of_nil in Hin.
Qed.

Lemma Crank_deposit_witness :
  inFundingPhase fixtures.fundingObjective
  ∧ ∃ se w deposit,
      directfund.Crank fixtures.fundingObjective fixtures.alice
      = Done (fixtures.fundingObjective, se, w, None)
      ∧ protocols.TransactionsToSubmit se
        = [{| protocols.ChannelId := channel.Id (directfund.C fixtures.fundingObjective);
              protocols.Deposit := deposit |}]
      ∧ deposit !! 0%N = Some 5%Z.
Proof.
  assert (Hphase : inFundingPhase fixtures.fundingObjective) by by vm_compute.
  split; [exact Hphase|].
  destruct (Crank_deposit fixtures.fundingObjective fixtures.alice Hphase)
    as (se & w & Hcrank & Hyes & _).
  - apply (bool_decide_unpack _). by vm_compute.
  - apply (bool_decide_unpack _). by vm_compute.
  - destruct Hyes as (deposit & Htx & Hdeposit).
    + split.
      * intros asset t Ht. change (({[0%N := 0%Z]} : gmap N Z) !! asset = Some t) in Ht.
        apply lookup_singleton_Some in Ht as [<- <-]. exists 0%Z. by split.
      * exists 0%N, 5%Z, 0%Z. repeat split; vm_compute; reflexivity.
    + exists se, w, deposit. split; [done|]. split; [done|]. by rewrite Hdeposit.
Defined.

(** ** C8 *)

Lemma indexOf_elem_of (a : N) (l : list N) : a ∈ l → is_Some (state.indexOf a l).
Proof.
  induction l as [|p rest IH]; simpl.
  - intros H. by apply elem_of_nil in H.
  - intros H. destruct (decide (p = a)); [by eexists|].
    apply elem_of_cons in H as [->|H]; [done|].
    destruct (IH H) as [i ->]. by eexists.
Qed.

(** C8.  [NewObjective] returns an error whenever the initial state has
    a turn number other than 0 or is final, and returns an objective for
    every turn-0, non-final initial state whose participants include the
    caller's address. *)
Theorem NewObjective_requires_prefund
        (preApprove : bool) (initialState : state.State) (myAddress : N) :
  (state.TurnNum initialState ≠ 0%N ∨ state.IsFinal initialState = true →
   ∃ e, directfund.NewObjective preApprove initialState myAddress = Err e)
  ∧ (state.TurnNum initialState = 0%N →
     state.IsFinal initialState = false →
     myAddress ∈ state.Participants initialState →
     ∃ o, directfund.NewObjective preApprove initialState myAddress = Ok o).
Proof.
  unfold directfund.NewObjective. split.
  - intros [Ht|Hf].
    + apply N.eqb_neq in Ht. rewrite Ht. simpl. by eexists.
    + destruct (negb _); [by eexists|]. rewrite Hf. by eexists.
  - intros Ht Hf Hin. rewrite Ht, Hf. simpl.
    destruct (indexOf_elem_of _ _ Hin) as [i ->].
    unfold channel.New. rewrite Ht. simpl. by eexists.
Qed.

Lemma NewObjective_requires_prefund_witness :
  (∃ e, directfund.NewObjective true fixtures.postfund fixtures.alice = Err e)
  ∧ (∃ o, directfund.NewObjective true fixtures.prefund fixtures.alice = Ok o).
Proof.
  split.
  - apply (proj1 (NewObjective_requires_prefund true fixtures.postfund fixtures.alice)).
    left. by vm_compute.
  - apply (proj2 (NewObjective_requires_prefund true fixtures.prefund fixtures.alice)).
    + reflexivity.
    + reflexivity.
    + apply (bool_decide_unpack _). by vm_compute.
Defined.

(** ** C9 *)

Lemma hex_value_hex_digit (d : N) :
  (d < 16)%N → types.hex_value (types.hex_digit d) = Some d.
Proof.
  intros Hd.
  assert (d ∈ [0; 1; 2; 3; 4; 5; 6; 7; 8; 9; 10; 11; 12; 13; 14; 15]%N) as Hin.
  { rewrite !elem_of_cons. lia. }
  repeat (apply elem_of_cons in Hin as [->|Hin]; [reflexivity|]).
  by apply elem_of_nil in Hin.
Qed.

Lemma length_hex_fixed (digits : nat) (d : N) (acc : string) :
  String.length (types.hex_fixed digits d acc) = (digits + String.length acc)%nat.
Proof.
  revert d acc. induction digits as [|k IH]; intros d acc; simpl; [done|].
  rewrite IH. simpl. lia.
Qed.

(** Parsing the digits that [hex_fixed] prints. *)
Lemma parse_hex_hex_fixed (digits : nat) (d : N) (acc : string) (v : N) :
  types.parse_hex (types.hex_fixed digits d acc) v
  = types.parse_hex acc (v * 16 ^ N.of_nat digits + d mod 16 ^ N.of_nat digits)%N.
Proof.
  revert d acc v. induction digits as [|k IH]; intros d acc v.
  - simpl. rewrite N.mod_1_r. f_equal. lia.
  - cbn [types.hex_fixed]. rewrite IH. cbn [types.parse_hex].
    rewrite hex_value_hex_digit by (apply N.mod_lt; lia).
    f_equal. rewrite Nat2N.inj_succ, N.pow_succ_r'.
    rewrite (N.Div0.mod_mul_r d 16 (16 ^ N.of_nat k)). lia.
Qed.

Lemma parse_fixed_hex_fixed (digits : nat) (d : N) :
  (d < 16 ^ N.of_nat digits)%N →
  types.parse_fixed digits ("0x" +:+ types.hex_fixed digits d "") = Some d.
Proof.
  intros Hd.
  change ("0x" +:+ types.hex_fixed digits d "")
    with (String "0" (String "x" (types.hex_fixed digits d ""))).
  cbn [types.parse_fixed].
  rewrite length_hex_fixed. simpl. rewrite Nat.add_0_r, decide_True by done.
  rewrite parse_hex_hex_fixed. simpl. by rewrite N.mod_small.
Qed.

Lemma Destination_text_roundtrip (d : N) :
  types.isDestination d →
  types.Destination_UnmarshalText (types.Destination_String d) = Some d.
Proof. intros Hd. by apply parse_fixed_hex_fixed. Qed.

Lemma Address_text_roundtrip (a : N) :
  types.isAddress a →
  types.Address_UnmarshalText (types.Address_String a) = Some a.
Proof. intros Ha. by apply parse_fixed_hex_fixed. Qed.

Lemma ObjectiveStatus_int_roundtrip (s : protocols.ObjectiveStatus) :
  protocols.ObjectiveStatus_of_int (protocols.ObjectiveStatus_int s) = Some s.
Proof. by destruct s. Qed.

(** Inserting the entries of a list without duplicate keys, in order. *)
Lemma foldl_insert_lookup (entries : list (N * Z)) (acc : gmap N Z) (k : N) :
  NoDup entries.*1 →
  foldl (λ m e, <[e.1 := e.2]> m) acc entries !! k
  = match list_to_map (M := gmap N Z) entries !! k with
    | Some v => Some v
    | None => acc !! k
    end.
Proof.
  revert acc. induction entries as [|[a v] rest IH]; intros acc Hnd; simpl.
  - by rewrite lookup_empty.
  - apply NoDup_cons in Hnd as [Hnotin Hnd]. rewrite IH by done.
    destruct (decide (a = k)) as [->|Hne].
    + rewrite (not_elem_of_list_to_map_1 (M := gmap N) rest k Hnotin).
      by rewrite !lookup_insert_eq.
    + rewrite !lookup_insert_ne by done. done.
Qed.

Lemma unmarshalFunds_entries (entries : list (N * Z)) (acc : gmap N Z) :
  Forall (λ e, types.isAddress e.1) entries →
  foldl (λ acc m,
           match acc with
           | Err e => Err e
           | Ok funds =>
               match types.Address_UnmarshalText m.1, m.2 with
               | Some asset, json.Number amount => Ok (<[asset := amount]> funds)
               | None, _ => Err "json: cannot unmarshal the key into an address"
               | _, _ => Err "json: cannot unmarshal the value into a big.Int"
               end
           end)
        (Ok acc)
        ((λ e, (types.Address_String e.1, json.Number e.2)) <$> entries)
  = Ok (foldl (λ m e, <[e.1 := e.2]> m) acc entries).
Proof.
  revert acc. induction entries as [|[a v] rest IH]; intros acc Hall; [done|].
  apply Forall_cons in Hall as [Ha Hall]. cbn [fmap list_fmap foldl fst snd].
  rewrite (Address_text_roundtrip a Ha). by apply IH.
Qed.

Lemma unmarshalFunds_marshalFunds (f : gmap N Z) :
  addressed f → json.unmarshalFunds (json.marshalFunds f) = Ok f.
Proof.
  intros Hf. unfold json.marshalFunds, json.unmarshalFunds.
  rewrite unmarshalFunds_entries.
  - f_equal. apply map_eq. intros k.
    rewrite foldl_insert_lookup by apply NoDup_fst_map_to_list.
    rewrite list_to_map_to_list, lookup_empty. by destruct (f !! k).
  - apply Forall_forall. intros [a v] Hin. apply elem_of_map_to_list in Hin.
    by apply (Hf a v).
Qed.

(** C9.  Serializing an objective and deserializing the result yields an
    objective with the same status and thresholds whose channel is the
    empty channel carrying the original channel's id; the serialized
    form has the members Status, C and the three thresholds, C being
    the text of the channel id, and depends on the channel through its
    id only. *)
Theorem Marshal_Unmarshal (o receiver : directfund.Objective) :
  serializable o →
  ∃ data o',
    directfund.MarshalJSON o = Ok data
    ∧ directfund.UnmarshalJSON receiver data = Ok o'
    ∧ directfund.Status o' = directfund.Status o
    ∧ directfund.myDepositSafetyThreshold o' = directfund.myDepositSafetyThreshold o
    ∧ directfund.myDepositTarget o' = directfund.myDepositTarget o
    ∧ directfund.fullyFundedThreshold o' = directfund.fullyFundedThreshold o
    ∧ directfund.C o'
      = {| channel.Id := channel.Id (directfund.C o);
           channel.MyIndex := 0;
           channel.OnChainFunding := ∅;
           channel.FixedPart := state.mkFixedPart 0 [] 0 0 0;
           channel.SignedStateForTurnNum := ∅;
           channel.latestSupportedStateTurnNum := None |}
    ∧ (∃ status safety target funded,
         data = json.Object
                  [("Status", status);
                   ("C", json.Text (types.Destination_String (channel.Id (directfund.C o))));
                   ("MyDepositSafetyThreshold", safety);
                   ("MyDepositTarget", target);
                   ("FullyFundedThreshold", funded)])
    ∧ ∀ c, channel.Id c = channel.Id (directfund.C o) →
           directfund.MarshalJSON (directfund.withC o c) = Ok data.
Proof.
  intros (Hid & Hs & Ht & Hf).
  eexists _, _. split; [reflexivity|].
  unfold directfund.UnmarshalJSON, directfund.json_Unmarshal.
  cbn [json.member foldl fst snd String.eqb Ascii.eqb Bool.eqb].
  cbn [directfund.unmarshalStatus directfund.unmarshalDestination directfund.unmarshalFunds
       directfund.json_Status directfund.json_C directfund.MyDepositSafetyThreshold
       directfund.MyDepositTarget directfund.FullyFundedThreshold].
  rewrite ObjectiveStatus_int_roundtrip, (Destination_text_roundtrip _ Hid).
  rewrite !unmarshalFunds_marshalFunds by done.
  split; [reflexivity|]. cbn.
  repeat (split; [reflexivity|]). split.
  - by eexists _, _, _, _.
  - intros c Hc. unfold directfund.MarshalJSON. cbn. by rewrite Hc.
Qed.

Example MarshalJSON_fundingObjective :
  directfund.MarshalJSON fixtures.fundingObjective
  = Ok (json.Object
          [("Status", json.Number 1);
           ("C", json.Text
                   "0x0100010101000100010001010001000001000101010001010100010000013a84");
           ("MyDepositSafetyThreshold",
            json.Object [("0x0000000000000000000000000000000000000000", json.Number 0)]);
           ("MyDepositTarget",
            json.Object [("0x0000000000000000000000000000000000000000", json.Number 5)]);
           ("FullyFundedThreshold",
            json.Object [("0x0000000000000000000000000000000000000000", json.Number 10)])]).
Proof. vm_compute. reflexivity. Qed.

Lemma Marshal_Unmarshal_witness :
  ∃ data o',
    directfund.MarshalJSON fixtures.fundingObjective = Ok data
    ∧ directfund.UnmarshalJSON fixtures.unapprovedObjective data = Ok o'
    ∧ directfund.Status o' = directfund.Status fixtures.fundingObjective
    ∧ channel.Id (directfund.C o') = channel.Id (directfund.C fixtures.fundingObjective)
    ∧ channel.SignedStateForTurnNum (directfund.C o') = ∅.
Proof.
  destruct (Marshal_Unmarshal fixtures.fundingObjective fixtures.unapprovedObjective)
    as (data & o' & Hm & Hu & Hs & _ & _ & _ & Hc & _).
  - apply (bool_decide_unpack _). vm_compute. reflexivity.
  - exists data, o'. rewrite Hc. by repeat split.
Defined.

(** ** C4: conservation in the ledger outcome *)

Lemma guaranteed_insert g (G : gmap N consensus_channel.Guarantee) :
  G !! consensus_channel.g_target g = None →
  map_fold (λ _ g acc, (consensus_channel.g_amount g + acc)%Z) 0%Z
           (<[consensus_channel.g_target g := g]> G)
  = (consensus_channel.g_amount g
     + map_fold (λ _ g acc, (consensus_channel.g_amount g + acc)%Z) 0%Z G)%Z.
Proof.
  intros Hfresh.
  rewrite (map_fold_insert_L (λ _ g acc, (consensus_channel.g_amount g + acc)%Z));
    [done| |done].
  intros. lia.
Qed.

Lemma guaranteed_delete target g (G : gmap N consensus_channel.Guarantee) :
  G !! target = Some g →
  map_fold (λ _ g acc, (consensus_channel.g_amount g + acc)%Z) 0%Z G
  = (consensus_channel.g_amount g
     + map_fold (λ _ g acc, (consensus_channel.g_amount g + acc)%Z) 0%Z (delete target G))%Z.
Proof.
  intros Hg.
  rewrite (map_fold_delete_L (λ _ g acc, (consensus_channel.g_amount g + acc)%Z) _ target g);
    [done| |done].
  intros. lia.
Qed.

(** C4.  Applying a legal Add or Remove proposal to a ledger outcome
    leaves left + right + the sum of the guarantees unchanged: an Add
    moves [leftDeposit] out of the left balance and [amount −
    leftDeposit] out of the right balance into a new guarantee for the
    target; a Remove of a guarantee of amount [a] returns [leftAmount]
    to the left balance and [a − leftAmount] to the right balance and
    deletes the guarantee. *)
Theorem applyProposal_conserves (lo lo' : consensus_channel.LedgerOutcome)
        (p : consensus_channel.Proposal) :
  consensus_channel.applyProposal lo p = Ok lo' →
  consensus_channel.ledgerTotal lo' = consensus_channel.ledgerTotal lo
  ∧ match consensus_channel.body p with
    | consensus_channel.ToAdd a =>
        let g := consensus_channel.Guarantee_ a in
        consensus_channel.guarantees lo !! consensus_channel.g_target g = None
        ∧ consensus_channel.amount (consensus_channel.left lo')
          = (consensus_channel.amount (consensus_channel.left lo)
             - consensus_channel.LeftDeposit a)%Z
        ∧ consensus_channel.amount (consensus_channel.right lo')
          = (consensus_channel.amount (consensus_channel.right lo)
             - (consensus_channel.g_amount g - consensus_channel.LeftDeposit a))%Z
        ∧ consensus_channel.guarantees lo'
          = <[consensus_channel.g_target g := g]> (consensus_channel.guarantees lo)
    | consensus_channel.ToRemove r =>
        ∃ g,
          consensus_channel.guarantees lo !! consensus_channel.Target_ r = Some g
          ∧ consensus_channel.amount (consensus_channel.left lo')
            = (consensus_channel.amount (consensus_channel.left lo)
               + consensus_channel.LeftAmount r)%Z
          ∧ consensus_channel.amount (consensus_channel.right lo')
            = (consensus_channel.amount (consensus_channel.right lo)
               + (consensus_channel.g_amount g - consensus_channel.LeftAmount r))%Z
          ∧ consensus_channel.guarantees lo'
            = delete (consensus_channel.Target_ r) (consensus_channel.guarantees lo)
    end.
Proof.
  unfold consensus_channel.applyProposal, consensus_channel.ledgerTotal,
    consensus_channel.guaranteed.
  destruct (consensus_channel.body p) as [a|r].
  - unfold consensus_channel.applyAdd.
    destruct (bool_decide _) eqn:Hdup; [done|].
    apply bool_decide_eq_false in Hdup.
    assert (Hfresh : consensus_channel.guarantees lo
                       !! consensus_channel.g_target (consensus_channel.Guarantee_ a) = None).
    { destruct (_ !! _) eqn:E; [|done]. exfalso. apply Hdup. by eexists. }
    do 3 (destruct (types.Gt _ _); [done|]).
    intros [= <-]. simpl. rewrite guaranteed_insert by done.
    split; [lia|done].
  - unfold consensus_channel.applyRemove.
    destruct (consensus_channel.guarantees lo !! consensus_channel.Target_ r)
      as [g|] eqn:Hg; [|done].
    do 2 (destruct (types.Gt _ _); [done|]).
    intros [= <-]. simpl. rewrite (guaranteed_delete _ g _ Hg).
    split; [lia|]. by exists g.
Qed.

Lemma applyProposal_conserves_witness :
  consensus_channel.ledgerTotal ledger_fixtures.afterRemoval
  = consensus_channel.ledgerTotal ledger_fixtures.ledger.
Proof.
  apply (applyProposal_conserves ledger_fixtures.ledger ledger_fixtures.afterRemoval
           ledger_fixtures.removal).
  by vm_compute.
Defined.

(** ** C3 and C5: receiving vouchers *)

(** The assertions of [TestPaymentManager] that concern [Receive] hold
    of the model. *)
Example TestPaymentManager_Receive :
  let receiptMgr0 := payments.NewVoucherManager fixtures.bob in
  let receiptMgr1 := voucher_fixtures.registered fixtures.bob in
  let receiptMgr2 := (payments.Receive receiptMgr1 voucher_fixtures.firstVoucher).1 in
  let receiptMgr3 := voucher_fixtures.receiptMgr in
  let tampered :=
    {| payments.ChannelId := voucher_fixtures.channelId;
       payments.Amount := voucher_fixtures.triplePayment;
       payments.Signature := payments.Signature voucher_fixtures.firstVoucher |} in
  (∃ e, payments.Receive receiptMgr0 voucher_fixtures.firstVoucher = (receiptMgr0, Err e))
  ∧ payments.Balance_ receiptMgr1 voucher_fixtures.channelId
    = Ok {| payments.Remaining := 1000; payments.Paid := 0 |}
  ∧ (payments.Receive receiptMgr1 voucher_fixtures.firstVoucher).2 = Ok 20%Z
  ∧ payments.Balance_ receiptMgr2 voucher_fixtures.channelId
    = Ok {| payments.Remaining := 980; payments.Paid := 20 |}
  ∧ payments.Receive receiptMgr2 voucher_fixtures.firstVoucher = (receiptMgr2, Ok 20%Z)
  ∧ payments.Receive receiptMgr2 voucher_fixtures.secondVoucher = (receiptMgr3, Ok 40%Z)
  ∧ payments.Balance_ receiptMgr3 voucher_fixtures.channelId
    = Ok {| payments.Remaining := 960; payments.Paid := 40 |}
  ∧ (∃ e, payments.Register receiptMgr3 voucher_fixtures.channelId
            fixtures.alice fixtures.bob voucher_fixtures.deposit = Err e)
  ∧ payments.Receive receiptMgr3 voucher_fixtures.firstVoucher = (receiptMgr3, Ok 40%Z)
  ∧ (∃ e, payments.Receive receiptMgr3
            (voucher_fixtures.testVoucher voucher_fixtures.wrongChannelId
               voucher_fixtures.payment fixtures.alice) = (receiptMgr3, Err e))
  ∧ (∃ e, payments.Receive receiptMgr3
            (voucher_fixtures.testVoucher voucher_fixtures.channelId
               voucher_fixtures.overPayment fixtures.alice) = (receiptMgr3, Err e))
  ∧ (∃ e, payments.Receive receiptMgr3 tampered = (receiptMgr3, Err e)).
Proof. repeat split; try (by vm_compute); eexists; by vm_compute. Qed.

(** An accepted voucher is signed by the payer and within the starting
    balance. *)
Lemma Receive_accepts vm v data vm' total :
  payments.channels vm !! payments.ChannelId v = Some data →
  payments.Receive vm v = (vm', Ok total) →
  payments.RecoverSigner v = Some (payments.channelPayer data)
  ∧ (payments.Amount v ≤ payments.startingBalance data)%Z.
Proof.
  intros Hreg. unfold payments.Receive. rewrite Hreg.
  destruct (payments.RecoverSigner v) as [signer|]; [|done].
  destruct (bool_decide (signer = payments.channelPayer data)) eqn:Hs; [|done].
  apply bool_decide_eq_true in Hs as ->. simpl.
  destruct (types.Gt (payments.Amount v) _) eqn:Hgt; [done|].
  apply Gt_false in Hgt. done.
Qed.

Lemma Receive_valid vm v data :
  payments.channels vm !! payments.ChannelId v = Some data →
  payments.RecoverSigner v = Some (payments.channelPayer data) →
  (payments.Amount v ≤ payments.startingBalance data)%Z →
  payments.Receive vm v =
  if types.Gt (payments.Amount v) (payments.Amount (payments.largestVoucher data))
  then (payments.withChannel vm (payments.ChannelId v) (payments.withLargest data v),
        Ok (payments.Amount v))
  else (vm, Ok (payments.Amount (payments.largestVoucher data))).
Proof.
  intros Hreg Hs Hle. unfold payments.Receive. rewrite Hreg, Hs.
  rewrite bool_decide_eq_true_2 by done. simpl.
  apply Gt_false in Hle. by rewrite Hle.
Qed.

Lemma Receive_error vm v e vm' :
  payments.Receive vm v = (vm', Err e) → vm' = vm.
Proof.
  unfold payments.Receive.
  destruct (payments.channels vm !! payments.ChannelId v) as [data|]; [|by intros [= <-]].
  destruct (payments.RecoverSigner v) as [signer|]; [|by intros [= <-]].
  destruct (negb _); [by intros [= <-]|].
  destruct (types.Gt _ _); [by intros [= <-]|].
  by destruct (types.Gt _ _).
Qed.

(** A successful receive answers the total that is stored afterwards. *)
Lemma Receive_paid vm v vm' total :
  payments.Receive vm v = (vm', Ok total) →
  payments.paid vm' (payments.ChannelId v) = Some total.
Proof.
  unfold payments.Receive, payments.paid.
  destruct (payments.channels vm !! payments.ChannelId v) as [data|] eqn:Hreg; [|done].
  destruct (payments.RecoverSigner v) as [signer|]; [|done].
  destruct (negb _); [done|]. destruct (types.Gt _ _); [done|].
  destruct (types.Gt _ _).
  - intros [= <- <-]. simpl. by rewrite lookup_insert_eq.
  - intros [= <- <-]. by rewrite Hreg.
Qed.

(** No receive lowers the total stored for any channel. *)
Lemma Receive_paid_mono vm v c p :
  payments.paid vm c = Some p →
  ∃ p', payments.paid (payments.Receive vm v).1 c = Some p' ∧ (p ≤ p')%Z.
Proof.
  intros Hp. unfold payments.Receive.
  destruct (payments.channels vm !! payments.ChannelId v) as [data|] eqn:Hreg;
    [|exists p; by split].
  destruct (payments.RecoverSigner v) as [signer|]; [|exists p; by split].
  destruct (negb _); [exists p; by split|].
  destruct (types.Gt _ _); [exists p; by split|].
  destruct (types.Gt _ _) eqn:Hgt; [|exists p; by split].
  apply Gt_true in Hgt. simpl. unfold payments.paid in *. simpl.
  destruct (decide (payments.ChannelId v = c)) as [<-|Hne].
  - rewrite lookup_insert_eq. simpl. eexists. split; [done|].
    rewrite Hreg in Hp. simpl in Hp. simplify_eq. lia.
  - rewrite lookup_insert_ne by done. exists p. by split.
Qed.

Lemma receiveAll_paid_mono vs vm c p :
  payments.paid vm c = Some p →
  ∃ p', payments.paid (payments.receiveAll vm vs) c = Some p' ∧ (p ≤ p')%Z.
Proof.
  revert vm p. induction vs as [|v vs IH]; intros vm p Hp; simpl.
  - exists p. by split.
  - destruct (Receive_paid_mono vm v c p Hp) as (p1 & Hp1 & Hle1).
    destruct (IH _ _ Hp1) as (p2 & Hp2 & Hle2).
    exists p2. split; [done|lia].
Qed.

(** C3, counterexample.  With a voucher for 40 stored, the voucher for
    20 is received without error and answered with 40, as the test
    expects. *)
Lemma old_voucher_is_received :
  ¬ receive_requires_no_decrease voucher_fixtures.receiptMgr voucher_fixtures.firstVoucher.
Proof.
  intros H.
  destruct (H {| payments.channelPayer := fixtures.alice;
                 payments.channelPayee := fixtures.bob;
                 payments.startingBalance := 1000;
                 payments.largestVoucher := voucher_fixtures.secondVoucher |}
              voucher_fixtures.receiptMgr 40%Z
              ltac:(by vm_compute) ltac:(by vm_compute)) as [_ Hle].
  vm_compute in Hle. by apply Hle.
Qed.

(** C3, amended.  On a registered channel [Receive] accepts a voucher
    only if its signer is the registered payer and its amount does not
    exceed the starting balance, and then returns the larger of the
    amount and the stored largest; on a strict increase (within the
    starting balance) it stores the voucher and returns its amount as
    the new total paid; on an amount equal to or below the stored
    largest it changes nothing and returns the stored total; the totals
    returned by successive receives on a channel never decrease. *)
Theorem Receive_total (vm : payments.VoucherManager) (v : payments.Voucher)
        (data : payments.paymentStatus) :
  payments.channels vm !! payments.ChannelId v = Some data →
  let largest := payments.Amount (payments.largestVoucher data) in
  (∀ vm' total, payments.Receive vm v = (vm', Ok total) →
                payments.RecoverSigner v = Some (payments.channelPayer data)
                ∧ (payments.Amount v ≤ payments.startingBalance data)%Z
                ∧ total = Z.max largest (payments.Amount v))
  ∧ (payments.RecoverSigner v = Some (payments.channelPayer data) →
     (largest < payments.Amount v ≤ payments.startingBalance data)%Z →
     payments.Receive vm v
     = (payments.withChannel vm (payments.ChannelId v) (payments.withLargest data v),
        Ok (payments.Amount v)))
  ∧ (payments.RecoverSigner v = Some (payments.channelPayer data) →
     (payments.Amount v ≤ largest)%Z →
     (payments.Amount v ≤ payments.startingBalance data)%Z →
     payments.Receive vm v = (vm, Ok largest))
  ∧ (∀ vm1 total1 between v2 vm2 total2,
       payments.Receive vm v = (vm1, Ok total1) →
       payments.ChannelId v2 = payments.ChannelId v →
       payments.Receive (payments.receiveAll vm1 between) v2 = (vm2, Ok total2) →
       (total1 ≤ total2)%Z).
Proof.
  intros Hreg largest. split; [|split; [|split]].
  - intros vm' total HR.
    destruct (Receive_accepts _ _ _ _ _ Hreg HR) as [Hs Hle]. split_and!; [done..|].
    rewrite (Receive_valid vm v data) in HR by done. fold largest in HR.
    destruct (types.Gt _ _) eqn:Hgt.
    + apply Gt_true in Hgt. injection HR as _ <-. lia.
    + apply Gt_false in Hgt. injection HR as _ <-. lia.
  - intros Hs [Hlt Hle]. rewrite (Receive_valid vm v data) by done.
    unfold largest in *. apply Gt_true in Hlt. by rewrite Hlt.
  - intros Hs Hle Hbal. rewrite (Receive_valid vm v data) by done.
    unfold largest in *. apply Gt_false in Hle. by rewrite Hle.
  - intros vm1 total1 between v2 vm2 total2 H1 Hc H2.
    apply Receive_paid in H1.
    destruct (receiveAll_paid_mono between vm1 _ _ H1) as (p' & Hp' & Hle).
    apply (Receive_paid_mono _ v2) in Hp' as (p'' & Hp'' & Hle').
    rewrite H2 in Hp''. simpl in Hp''.
    apply Receive_paid in H2. rewrite Hc in H2.
    assert (p'' = total2) by congruence. lia.
Qed.

Lemma Receive_total_witness :
  payments.Receive (payments.Receive (voucher_fixtures.registered fixtures.bob)
                      voucher_fixtures.firstVoucher).1
                   voucher_fixtures.secondVoucher
  = (voucher_fixtures.receiptMgr, Ok 40%Z).
Proof.
  apply (proj1 (proj2 (Receive_total
           (payments.Receive (voucher_fixtures.registered fixtures.bob)
                             voucher_fixtures.firstVoucher).1
           voucher_fixtures.secondVoucher
           {| payments.channelPayer := fixtures.alice;
              payments.channelPayee := fixtures.bob;
              payments.startingBalance := 1000;
              payments.largestVoucher := voucher_fixtures.firstVoucher |}
           ltac:(by vm_compute)))).
  - by vm_compute.
  - vm_compute. split; [reflexivity|discriminate].
Defined.

(** C5.  On a registered channel a voucher whose amount exceeds the
    starting balance is answered with an error and the manager, hence
    the stored balance, is unchanged; a voucher of the payer whose
    amount equals the starting balance is accepted. *)
Theorem Receive_over_balance (vm : payments.VoucherManager) (v : payments.Voucher)
        (data : payments.paymentStatus) :
  payments.channels vm !! payments.ChannelId v = Some data →
  ((payments.startingBalance data < payments.Amount v)%Z →
   ∃ e, payments.Receive vm v = (vm, Err e)
        ∧ payments.Balance_ (payments.Receive vm v).1 (payments.ChannelId v)
          = payments.Balance_ vm (payments.ChannelId v))
  ∧ (payments.Amount v = payments.startingBalance data →
     payments.RecoverSigner v = Some (payments.channelPayer data) →
     ∃ vm' total, payments.Receive vm v = (vm', Ok total)
                  ∧ (payments.Amount v ≤ total)%Z).
Proof.
  intros Hreg. split.
  - intros Hover.
    destruct (payments.Receive vm v) as [vm' [total|e]] eqn:HR.
    + destruct (Receive_accepts _ _ _ _ _ Hreg HR) as [_ Hle]. lia.
    + apply Receive_error in HR as Hvm. subst vm'. by exists e.
  - intros Heq Hs. rewrite (Receive_valid vm v data) by (done || lia).
    destruct (types.Gt _ _) eqn:Hgt.
    + eexists _, _. by split.
    + apply Gt_false in Hgt. eexists _, _. by split.
Qed.

Lemma Receive_over_balance_witness :
  (∃ e, payments.Receive voucher_fixtures.receiptMgr
          (voucher_fixtures.testVoucher voucher_fixtures.channelId
             voucher_fixtures.overPayment fixtures.alice)
        = (voucher_fixtures.receiptMgr, Err e)
        ∧ payments.Balance_
            (payments.Receive voucher_fixtures.receiptMgr
               (voucher_fixtures.testVoucher voucher_fixtures.channelId
                  voucher_fixtures.overPayment fixtures.alice)).1
            voucher_fixtures.channelId
          = payments.Balance_ voucher_fixtures.receiptMgr voucher_fixtures.channelId)
  ∧ (∃ vm' total,
       payments.Receive voucher_fixtures.receiptMgr
         (voucher_fixtures.testVoucher voucher_fixtures.channelId
            voucher_fixtures.deposit fixtures.alice)
       = (vm', Ok total)
       ∧ (1000 ≤ total)%Z).
Proof.
  split.
  - apply (proj1 (Receive_over_balance voucher_fixtures.receiptMgr
             (voucher_fixtures.testVoucher voucher_fixtures.channelId
                voucher_fixtures.overPayment fixtures.alice)
             {| payments.channelPayer := fixtures.alice;
                payments.channelPayee := fixtures.bob;
                payments.startingBalance := 1000;
                payments.largestVoucher := voucher_fixtures.secondVoucher |}
             ltac:(by vm_compute))).
    by vm_compute.
  - apply (proj2 (Receive_over_balance voucher_fixtures.receiptMgr
             (voucher_fixtures.testVoucher voucher_fixtures.channelId
                voucher_fixtures.deposit fixtures.alice)
             {| payments.channelPayer := fixtures.alice;
                payments.channelPayee := fixtures.bob;
                payments.startingBalance := 1000;
                payments.largestVoucher := voucher_fixtures.secondVoucher |}
             ltac:(by vm_compute))).
    + by vm_compute.
    + by vm_compute.
Defined.

(** ** The store *)

Section store_facts.
Context {O : Type} `{!objective.Objective O}.

Lemma SetChannels_frame (cs : list channel.Channel) (s : store.Store O) :
  store.objectives (foldl store.SetChannel s cs) = store.objectives s
  ∧ store.consensusChannels (foldl store.SetChannel s cs) = store.consensusChannels s
  ∧ store.channelToObjective (foldl store.SetChannel s cs) = store.channelToObjective s
  ∧ store.key (foldl store.SetChannel s cs) = store.key s.
Proof.
  revert s. induction cs as [|c cs IH]; intros s; simpl; [done|].
  destruct (IH (store.SetChannel s c)) as (-> & -> & -> & ->). done.
Qed.

Lemma SetChannels_channels (cs : list channel.Channel) (s : store.Store O) :
  store.channels (foldl store.SetChannel s cs)
  = foldl (λ m c, <[channel.Id c := c]> m) (store.channels s) cs.
Proof. revert s. induction cs as [|c cs IH]; intros s; simpl; [done|]. by rewrite IH. Qed.

(** [SetObjective] files the objective, with channel ids only, under
    its id, stores its channels and leaves the consensus channels and
    the key alone. *)
Lemma SetObjective_Ok (s s' : store.Store O) (obj : O) :
  store.SetObjective s obj = Ok s' →
  store.objectives s'
  = <[objective.Id obj := objective.dropChannelData obj]> (store.objectives s)
  ∧ store.channels s'
    = foldl (λ m c, <[channel.Id c := c]> m) (store.channels s) (objective.Related obj)
  ∧ store.consensusChannels s' = store.consensusChannels s
  ∧ store.key s' = store.key s.
Proof.
  unfold store.SetObjective.
  destruct (SetChannels_frame (objective.Related obj) s) as (Ho & Hc & Hi & Hk).
  pose proof (SetChannels_channels (objective.Related obj) s) as Hch.
  destruct (store.channelToObjective _ !! _) as [prev|].
  - destruct (negb _); [done|]. intros [= <-]. simpl. by rewrite Ho, Hc, Hk, Hch.
  - intros [= <-]. simpl. by rewrite Ho, Hc, Hk, Hch.
Qed.



(** The index of the owned channels after [SetObjective]. *)
Lemma SetObjective_index (s s' : store.Store O) (obj : O) :
  store.SetObjective s obj = Ok s' →
  store.channelToObjective s' !! objective.OwnsChannel obj = Some (objective.Id obj).
Proof.
  unfold store.SetObjective.
  destruct (SetChannels_frame (objective.Related obj) s) as (_ & _ & -> & _).
  destruct (store.channelToObjective s !! _) as [prev|] eqn:Hprev.
  - destruct (bool_decide (prev = objective.Id obj)) eqn:Hd; simpl; [|done].
    apply bool_decide_eq_true in Hd as ->. intros [= <-]. simpl. done.
  - intros [= <-]. simpl. by rewrite lookup_insert_eq.
Qed.

Context `{!objective.PersistLaws O}.


End store_facts.

#[global] Instance directfund_PersistLaws : objective.PersistLaws directfund.Objective.
Proof.
  split. intros o chans.
  change (objective.directfund_loadChannelData (objective.directfund_dropChannelData o)
            (λ id, <[channel.Id (directfund.C o) := directfund.C o]> chans !! id)
          = Some o).
  unfold objective.directfund_loadChannelData. simpl. rewrite lookup_insert_eq. simpl.
  by destruct o.
Qed.


(** ** The engine *)

Section engine_facts.
Context {O : Type} `{!objective.Objective O}.







(** *** The loops of [handleMessage] *)







Context `{!objective.RejectLaws O} `{!objective.PersistLaws O}.



End engine_facts.

#[global] Instance directfund_RejectLaws : objective.RejectLaws directfund.Objective.
Proof.
  split.
  - done.
  - intros o. change (directfund.Id (directfund.Reject o) = directfund.Id o).
    unfold directfund.Reject. by rewrite clone_id.
Qed.

(** ** C6 *)





Example Crank_completeObjective :
  directfund.Crank engine_fixtures.completeObjective fixtures.alice
  = Done (engine_fixtures.completeObjective, protocols.noSideEffects,
          directfund.WaitingForNothing, None).
Proof. by vm_compute. Qed.



(** The same with a postfund outcome over two assets: the objective is
    reported as completed beside the error, and the channel stays in
    the store without a consensus channel. *)
Example attemptProgress_two_assets :
  match engine.attemptProgress engine_fixtures.engine0 engine_fixtures.twoAssetObjective with
  | Done (e', event, err) =>
      (length (engine.CompletedObjectives event),
       bool_decide (is_Some (store.GetChannelById (engine.store_ e')
                               (channel.Id engine_fixtures.twoAssetChannel))),
       bool_decide (is_Some (store.GetConsensusChannelById (engine.store_ e')
                               (channel.Id engine_fixtures.twoAssetChannel))),
       err)
  | Panicked _ => (O, false, false, None)
  end
  = (1%nat, true, false,
     Some ("could not create consensus channel for objective "
             +:+ directfund.Id engine_fixtures.twoAssetObjective
             +:+ ": a consensus channel only supports a single asset")).
Proof. vm_compute. reflexivity. Qed.

(** ** C7 *)


(** What the message of the counterexample leaves behind: the objective
    is stored as rejected, no objective is reported and the error is
    the one of the store. *)
Example twoRejections_handled :
  match engine.handleMessage engine_fixtures.engine1 engine_fixtures.twoRejections with
  | Done (e', event, err) =>
      (match store.GetObjectiveById (engine.store_ e')
               (directfund.Id fixtures.unapprovedObjective) with
       | Ok o => Some (objective.GetStatus o)
       | Err _ => None
       end,
       length (engine.CompletedObjectives event), err)
  | Panicked _ => (None, O, None)
  end
  = (Some protocols.Rejected, O, Some store.ErrNoSuchObjective).
Proof. vm_compute. reflexivity. Qed.


(** The rejection that the engine drops would have notified Bob. *)
Example Reject_notifies_peer :
  protocols.To <$> protocols.MessagesToSend (objective.Reject fixtures.unapprovedObjective).2
  = [fixtures.bob].
Proof. by vm_compute. Qed.

(** With a direct-fund objective its channel is stored. *)
Lemma SetObjective_stores_channel (s s' : store.Store directfund.Objective)
      (o : directfund.Objective) :
  store.SetObjective s o = Ok s' →
  store.GetChannelById s' (channel.Id (directfund.C o)) = Some (directfund.C o).
Proof.
  intros (_ & Hch & _)%SetObjective_Ok. unfold store.GetChannelById. rewrite Hch.
  cbn [objective.Related objective.directfund_Objective directfund.Channels foldl].
  apply lookup_insert_eq.
Qed.

(** The objective that is kept holds the id of its channel and none of
    its data: it is what [MarshalJSON] writes. *)
Lemma SetObjective_keeps_ids_only (s s' : store.Store directfund.Objective)
      (o : directfund.Objective) :
  store.SetObjective s o = Ok s' →
  ∃ stored,
    store.objectives s' !! directfund.Id o = Some stored
    ∧ channel.Id (directfund.C stored) = channel.Id (directfund.C o)
    ∧ channel.SignedStateForTurnNum (directfund.C stored) = ∅
    ∧ channel.OnChainFunding (directfund.C stored) = ∅
    ∧ directfund.MarshalJSON stored = directfund.MarshalJSON o.
Proof.
  intros (Ho & _)%SetObjective_Ok. eexists. split.
  { rewrite Ho. apply lookup_insert_eq. }
  done.
Qed.

(** Scenario 1 of the spec at Alice's engine: she signs the prefund
    state and sends it to Bob; on Bob's signature she deposits 5. *)
Example scenario1_alice :
  let started := engine.attemptProgress engine_fixtures.engine0 fixtures.freshObjective in
  engine_fixtures.observe started = Some ([fixtures.bob], [], O, None)
  ∧ engine_fixtures.observe
      (engine.handleMessage (engine_fixtures.engineOf started) fixtures.bobsPrefund)
    = Some ([fixtures.bob], protocols.TransactionsToSubmit fixtures.depositOfFive, O, None).
Proof. split; vm_compute; reflexivity. Qed.

(** The message that repeats the rejection: the objective is stored as
    rejected and reported once, and nothing is sent. *)
Example sameRejectionTwice_handled :
  match engine.handleMessage engine_fixtures.engine1 engine_fixtures.sameRejectionTwice with
  | Done (e', event, err) =>
      (match store.GetObjectiveById (engine.store_ e')
               (directfund.Id fixtures.unapprovedObjective) with
       | Ok o => Some (objective.GetStatus o)
       | Err _ => None
       end,
       length (engine.CompletedObjectives event), engine.sent e', err)
  | Panicked _ => (None, O, [], None)
  end
  = (Some protocols.Rejected, 1%nat, [], None).
Proof. vm_compute. reflexivity. Qed.
